(** * codats: run identity, training schedule and TFRecord naming

    A shallow embedding of [main.py] and [datasets/tfrecord.py].

    Python values are modelled as follows.
    - [int] is [Z]; [%] is floor modulo ([Z.modulo] for a non-zero divisor)
      and raises [ZeroDivisionError] on a zero divisor.
    - The TensorFlow variable [global_step] is a 32-bit signed integer:
      its value is a [Z] in the int32 range and its arithmetic wraps
      around.
    - [str] is [string], read as the UTF-8 bytes of the text: byte-wise
      lexicographic order on UTF-8 coincides with Python's code point order.
    - An exception is a value of [exn]; a computation that may raise returns
      a [result].
    - Calls into collaborators that are not part of these two files
      (TensorFlow, [metrics], [checkpoints], [file_utils], [logging]) are
      recorded as events, and what they return is a section variable. *)

From Stdlib Require Import ZArith List String Ascii Bool Lia.
From Stdlib Require Import DecimalString.
Import ListNotations.

Local Open Scope string_scope.
Local Open Scope Z_scope.

(** ** Exceptions and the error monad *)

Inductive exn : Type :=
| AssertionError (msg : string)
| TypeError
| ZeroDivisionError
| IndexError.

Inductive result (A : Type) : Type :=
| Ok (a : A)
| Err (e : exn).

Arguments Ok {A} a.
Arguments Err {A} e.

Definition rbind {A B : Type} (m : result A) (k : A -> result B) : result B :=
  match m with
  | Ok a => k a
  | Err e => Err e
  end.

Declare Scope py_scope.
Delimit Scope py_scope with py.
Notation "x <- m ;; k" := (rbind m (fun x => k))
  (at level 61, m at next level, right associativity) : py_scope.
Notation "'py_assert' b 'else' msg ;; k" :=
  (if b then k else Err (AssertionError msg))
  (at level 61, b at next level, msg at next level, right associativity)
  : py_scope.
Local Open Scope py_scope.

Definition is_assertion_error {A : Type} (r : result A) : Prop :=
  exists msg, r = Err (AssertionError msg).

Definition returns {A : Type} (r : result A) : Prop :=
  exists a, r = Ok a.

(** ** Python built-ins used by the two files *)

Module Py.

(** [a % b] on integers. *)
Definition mod_ (a b : Z) : result Z :=
  if b =? 0 then Err ZeroDivisionError else Ok (a mod b).

(** [range(lo, hi)] *)
Definition range (lo hi : Z) : list Z :=
  map (fun k => lo + Z.of_nat k) (seq 0 (Z.to_nat (hi - lo))).

(** [str(n)] for an integer. *)
Definition str (n : Z) : string :=
  NilZero.string_of_int (Z.to_int n).

(** A value that is either [None] or a [str]; [a < b] between two of them
    raises [TypeError] unless both are strings. *)
Definition lt (a b : option string) : result bool :=
  match a, b with
  | Some s, Some t => Ok (String.ltb s t)
  | _, _ => Err TypeError
  end.

(** [list.sort()]: a stable insertion sort driven by [<]. *)
Fixpoint insert (x : option string) (l : list (option string))
  : result (list (option string)) :=
  match l with
  | [] => Ok [x]
  | y :: l' =>
      b <- lt x y ;;
      if b then Ok (x :: y :: l')
      else (r <- insert x l' ;; Ok (y :: r))
  end.

Fixpoint sort (l : list (option string)) : result (list (option string)) :=
  match l with
  | [] => Ok []
  | x :: l' => s <- sort l' ;; insert x s
  end.

(** [l[i]]: a negative index counts from the end. *)
Definition getitem {A : Type} (l : list A) (i : Z) : result A :=
  let n := Z.of_nat (List.length l) in
  let j := if i <? 0 then i + n else i in
  if j <? 0 then Err IndexError
  else match nth_error l (Z.to_nat j) with
       | Some a => Ok a
       | None => Err IndexError
       end.

(** [a + b] between values that are [None] or a [str]. *)
Definition concat (a b : option string) : result string :=
  match a, b with
  | Some s, Some t => Ok (s ++ t)
  | _, _ => Err TypeError
  end.

(** A value that is a [str] or an [int], and [a + b] on such values: string
    concatenation, integer addition, [TypeError] on a mix. *)
Inductive value : Type :=
| VStr (s : string)
| VInt (n : Z).

Definition add (a b : value) : result value :=
  match a, b with
  | VStr s, VStr t => Ok (VStr (s ++ t))
  | VInt m, VInt n => Ok (VInt (m + n))
  | _, _ => Err TypeError
  end.

(** [x in l] for a list of strings. *)
Definition mem (x : string) (l : list string) : bool :=
  existsb (String.eqb x) l.

(** [x in l] where the list may hold [None]. *)
Definition mem_opt (x : string) (l : list (option string)) : bool :=
  existsb (fun y => match y with
                    | Some s => String.eqb x s
                    | None => false
                    end) l.

(** [os.path.join(a, b)] (posixpath). *)
Definition startswith_sep (s : string) : bool :=
  match s with
  | String c _ => Ascii.eqb c "/"%char
  | EmptyString => false
  end.

Fixpoint endswith_sep (s : string) : bool :=
  match s with
  | EmptyString => false
  | String c EmptyString => Ascii.eqb c "/"%char
  | String _ s' => endswith_sep s'
  end.

Definition path_join (a b : string) : string :=
  if startswith_sep b then b
  else if (String.eqb a EmptyString || endswith_sep a)%bool then a ++ b
  else a ++ "/" ++ b.

(** [os.path.join(a, b)] where [b] is a dynamically typed value. *)
Definition path_join_value (a : string) (b : value) : result string :=
  match b with
  | VStr s => Ok (path_join a s)
  | VInt _ => Err TypeError
  end.

End Py.

(** ** TensorFlow's int32 arithmetic

    [tf.Variable(0)] has dtype int32; [assign_add] and [-] on it wrap
    around at 2^31. *)

Module Int32.

(** The int32 value congruent to [z] modulo 2^32. *)
Definition wrap (z : Z) : Z :=
  (z + 2147483648) mod 4294967296 - 2147483648.

Definition add (a b : Z) : Z := wrap (a + b).

Definition sub (a b : Z) : Z := wrap (a - b).

End Int32.

(** ** datasets/tfrecord.py *)

Module Tfrecord.

Definition splits : list string := ["train"; "valid"; "test"].

Definition skip : list string :=
  ["office_amazon"; "office_dslr"; "office_webcam"].

(** ["%s_%s.tfrecord" % (a, b)] *)
Definition fmt2 (a b : string) : string :=
  a ++ "_" ++ b ++ ".tfrecord".

(** ["%s_%s_%s.tfrecord" % (a, b, c)] *)
Definition fmt3 (a b c : string) : string :=
  a ++ "_" ++ b ++ "_" ++ c ++ ".tfrecord".

Definition in_skip (d : option string) : bool :=
  match d with
  | Some s => Py.mem s skip
  | None => false
  end.

Definition is_none (d : option string) : bool :=
  match d with
  | None => true
  | Some _ => false
  end.

(** [tfrecord_filename(domain1, domain2, dataset_name, train_or_test)];
    [domain2] may be [None]. *)
Definition tfrecord_filename (domain1 : string) (domain2 : option string)
    (dataset_name train_or_test : string) : result string :=
  let names := [Some domain1; domain2] in
  py_assert (Py.mem train_or_test splits)
    else "train_or_test must be train, valid, or test" ;;
  py_assert (Py.mem_opt dataset_name names)
    else "dataset_name must be one of domain1 or domain2" ;;
  if (is_none domain2 || (Py.mem domain1 skip && in_skip domain2))%bool
  then Ok (fmt2 dataset_name train_or_test)
  else
    names <- Py.sort names ;;
    n0 <- Py.getitem names 0 ;;
    n1 <- Py.getitem names 1 ;;
    p <- Py.concat n0 (Some "_and_") ;;
    prefix <- Py.concat (Some p) n1 ;;
    Ok (fmt3 prefix dataset_name train_or_test).

(** [tfrecord_filename_simple(dataset_name, train_or_test)] *)
Definition tfrecord_filename_simple (dataset_name train_or_test : string)
  : result string :=
  py_assert (Py.mem train_or_test splits)
    else "train_or_test must be train, valid, or test" ;;
  Ok (fmt2 dataset_name train_or_test).

(** [write_tfrecord]: the tensors and their encodings belong to
    TensorFlow and are kept abstract. *)
Section Writer.

Variable tensor : Type.
Variable bytes : Type.
(** [tf.io.serialize_tensor(t)], read back with [.numpy()]. *)
Variable serialize_tensor : tensor -> bytes.

Record Feature : Type := { bytes_list : list bytes }.

Definition _bytes_feature (value : bytes) : Feature :=
  {| bytes_list := [value] |}.

Record Example : Type :=
  { feature_x : Feature; feature_y : Feature; feature_domain : Feature }.

Definition create_tf_example (x y domain : tensor) : Example :=
  {| feature_x := _bytes_feature (serialize_tensor x);
     feature_y := _bytes_feature (serialize_tensor y);
     feature_domain := _bytes_feature (serialize_tensor domain) |}.

(** [tf_example.SerializeToString()] *)
Variable SerializeToString : Example -> bytes.

(** What a [TFRecordWriter] has produced when it is closed. *)
Record TFRecordFile : Type :=
  { path : string; compression_type : string; records : list bytes }.

(** The body of [for i in range(len(x))]: the records written, in
    order. *)
Fixpoint write_loop (x y domain : list tensor) (indices : list Z)
  : result (list bytes) :=
  match indices with
  | [] => Ok []
  | i :: rest =>
      xi <- Py.getitem x i ;;
      yi <- Py.getitem y i ;;
      di <- Py.getitem domain i ;;
      let tf_example := create_tf_example xi yi di in
      written <- write_loop x y domain rest ;;
      Ok (SerializeToString tf_example :: written)
  end.

Definition len {A : Type} (l : list A) : Z := Z.of_nat (List.length l).

Definition write_tfrecord (filename : string) (x y domain : list tensor)
  : result TFRecordFile :=
  py_assert (len x =? len y) else EmptyString ;;
  py_assert (len x =? len domain) else EmptyString ;;
  written <- write_loop x y domain (Py.range 0 (len x)) ;;
  Ok {| path := filename; compression_type := "GZIP";
        records := written |}.

End Writer.

End Tfrecord.

(** ** Computations that call collaborators

    A traced computation yields the events it caused, in order, and either a
    value or the exception that stopped it. *)

Definition traced (E A : Type) : Type := (list E * result A)%type.

Definition tret {E A : Type} (a : A) : traced E A := ([], Ok a).

Definition emit {E : Type} (e : E) : traced E unit := ([e], Ok tt).

Definition lift {E A : Type} (r : result A) : traced E A := ([], r).

Definition tbind {E A B : Type} (m : traced E A) (k : A -> traced E B)
  : traced E B :=
  match m with
  | (tr, Ok a) => let (tr', r) := k a in ((tr ++ tr')%list, r)
  | (tr, Err e) => (tr, Err e)
  end.

Definition relabel {E E' A : Type} (f : E -> E') (m : traced E A)
  : traced E' A :=
  (map f (fst m), snd m).

Declare Scope traced_scope.
Delimit Scope traced_scope with traced.
Notation "x <- m ;; k" := (tbind m (fun x => k))
  (at level 61, m at next level, right associativity) : traced_scope.
Notation "m ;;; k" := (tbind m (fun _ => k))
  (at level 61, right associativity) : traced_scope.
Notation "'when' b 'then' m" := (if b then m else tret tt)
  (at level 60, b at next level) : traced_scope.

(** ** main.py *)

Module Main.

(** The command line flags the modelled code reads, with the type their
    [flags.DEFINE_*] declaration gives them. *)
Record Flags : Type :=
  { modeldir : string;            (* DEFINE_string *)
    logdir : string;              (* DEFINE_string *)
    method : string;              (* DEFINE_enum, required *)
    dataset : string;             (* DEFINE_string, required *)
    uid : Z;                      (* DEFINE_integer *)
    steps : Z;                    (* DEFINE_integer *)
    model_steps : Z;              (* DEFINE_integer *)
    log_train_steps : Z;          (* DEFINE_integer *)
    log_val_steps : Z;            (* DEFINE_integer *)
    log_plots_steps : Z;          (* DEFINE_integer *)
    subdir : bool;                (* DEFINE_boolean *)
    debug : bool;                 (* DEFINE_boolean *)
    time_training : bool;         (* DEFINE_boolean *)
    debugnum : Z }.               (* DEFINE_integer *)

(** No cadence flag is zero, so no [%] in the loop raises. *)
Definition cadences_nonzero (F : Flags) : Prop :=
  log_train_steps F <> 0 /\ log_val_steps F <> 0
  /\ model_steps F <> 0 /\ log_plots_steps F <> 0.

(** *** get_directory_names *)

Inductive dir_event : Type :=
| LoggingInfo (attempt : Z)
    (* logging.info("Debugging attempt: %s", attempt) *)
| LastModifiedNumber (dir pattern : string).
    (* file_utils.last_modified_number(dir, pattern) *)

Section Directories.

(** What [file_utils.last_modified_number] answers. *)
Variable last_modified_number : string -> string -> option Z.

Local Open Scope traced_scope.

(** Line 51: [FLAGS.dataset+"-"+FLAGS.uid+"-"+FLAGS.method]. *)
Definition prefix (F : Flags) : result Py.value :=
  (v <- Py.add (Py.VStr (dataset F)) (Py.VStr "-") ;;
   v <- Py.add v (Py.VInt (uid F)) ;;
   v <- Py.add v (Py.VStr "-") ;;
   Py.add v (Py.VStr (method F)))%py.

(** [prefix += "-"+str(attempt)] followed by the two joins. *)
Definition numbered (F : Flags) (prefix : Py.value) (attempt : Z)
  : traced dir_event (string * string) :=
  prefix <- lift (Py.add prefix (Py.VStr ("-" ++ Py.str attempt))) ;;
  model_dir <- lift (Py.path_join_value (modeldir F) prefix) ;;
  log_dir <- lift (Py.path_join_value (logdir F) prefix) ;;
  tret (model_dir, log_dir).

(** Lines 53 to 79: the branches, once [prefix] has a value. *)
Definition directory_modes (F : Flags) (prefix : Py.value)
  : traced dir_event (string * string) :=
  if debugnum F >=? 0 then
    let attempt := debugnum F in
    emit (LoggingInfo attempt) ;;;
    numbered F prefix attempt
  else if debug F then
    pattern <- lift (Py.add prefix (Py.VStr "*")) ;;
    pattern <- lift (match pattern with
                     | Py.VStr s => Ok s
                     | Py.VInt _ => Err TypeError
                     end) ;;
    emit (LastModifiedNumber (logdir F) pattern) ;;;
    let attempt := last_modified_number (logdir F) pattern in
    let attempt := match attempt with
                   | Some n => n + 1
                   | None => 1
                   end in
    emit (LoggingInfo attempt) ;;;
    numbered F prefix attempt
  else if subdir F then
    model_dir <- lift (Py.path_join_value (modeldir F) prefix) ;;
    log_dir <- lift (Py.path_join_value (logdir F) prefix) ;;
    tret (model_dir, log_dir)
  else
    tret (modeldir F, logdir F).

Definition get_directory_names (F : Flags)
  : traced dir_event (string * string) :=
  prefix <- lift (prefix F) ;;
  directory_modes F prefix.

End Directories.

(** *** The training loop of main *)

Inductive event (score : Type) : Type :=
| TrainStep                      (* method.get_next_data, method.train_step *)
| Print (global_step : Z)        (* print(int(global_step), t, sep=",") *)
| StepTook (global_step : Z)     (* logging.info("step %d took ...") *)
| MetricsTrain (global_step : Z) (* metrics.train(..., global_step, t) *)
| MetricsTest (global_step : Z)  (* metrics.test(global_step) *)
| Save (step : Z) (validation_accuracy : option score)
                                 (* checkpoint_manager.save(step, acc) *)
| Plots (global_step : Z).       (* metrics.plots(global_step) *)

Arguments TrainStep {score}.
Arguments Print {score} global_step.
Arguments StepTook {score} global_step.
Arguments MetricsTrain {score} global_step.
Arguments MetricsTest {score} global_step.
Arguments Save {score} step validation_accuracy.
Arguments Plots {score} global_step.

(** What main does from line 123 on: an event of iteration [i] of the
    loop, or the final [file_utils.write_finished(log_dir)]. *)
Inductive main_event (score : Type) : Type :=
| InLoop (i : Z) (e : event score)
| WriteFinished.

Arguments InLoop {score} i e.
Arguments WriteFinished {score}.

Section Training.

Variable score : Type.
(** What [metrics.test(global_step)] returns. *)
Variable metrics_test : Z -> option score.

Local Open Scope traced_scope.

Definition is_not_none (v : option score) : bool :=
  match v with
  | Some _ => true
  | None => false
  end.

(** One pass through the body of the [for] loop, lines 125 to 156.
    [global_step] is the TensorFlow variable, an int32; the result is its new
    value. *)
Definition body (F : Flags) (i : Z) (global_step : Z)
  : traced (event score) Z :=
  emit TrainStep ;;;
  let global_step := Int32.add global_step 1 in
  if time_training F then
    emit (Print global_step) ;;;
    tret global_step
  else
    m <- lift (Py.mod_ i 100) ;;
    (when (m =? 0) then emit (StepTook global_step)) ;;;
    m <- lift (Py.mod_ i (log_train_steps F)) ;;
    (when (m =? 0) then emit (MetricsTrain global_step)) ;;;
    m <- lift (Py.mod_ i (log_val_steps F)) ;;
    validation_accuracy <-
      (if (m =? 0) || (i =? steps F)
       then emit (MetricsTest global_step) ;;;
            tret (metrics_test global_step)
       else tret None) ;;
    m <- lift (Py.mod_ i (model_steps F)) ;;
    (when (m =? 0) || is_not_none validation_accuracy
     then emit (Save (Int32.sub global_step 1) validation_accuracy)) ;;;
    m <- lift (Py.mod_ i (log_plots_steps F)) ;;
    (when (m =? 0) then emit (Plots global_step)) ;;;
    tret global_step.

(** [for i in indices: body] *)
Fixpoint for_loop (F : Flags) (indices : list Z) (global_step : Z)
  : traced (main_event score) Z :=
  match indices with
  | [] => tret global_step
  | i :: rest =>
      global_step <- relabel (InLoop i) (body F i global_step) ;;
      for_loop F rest global_step
  end.

(** Lines 124 to 159, with [global_step] as [restore_latest] left it. *)
Definition training (F : Flags) (global_step : Z)
  : traced (main_event score) unit :=
  for_loop F (Py.range global_step (steps F + 1)) global_step ;;;
  emit WriteFinished.

(** The events of iteration [i] in a trace. *)
Definition events_of (i : Z) (tr : list (main_event score))
  : list (event score) :=
  flat_map (fun e => match e with
                     | InLoop j ev => if j =? i then [ev] else []
                     | WriteFinished => []
                     end) tr.

(** The loop steps at which [metrics.test] was called, one entry per
    call. *)
Definition validation_steps (tr : list (main_event score)) : list Z :=
  flat_map (fun e => match e with
                     | InLoop i (MetricsTest _) => [i]
                     | _ => []
                     end) tr.

Definition count_finished (tr : list (main_event score)) : nat :=
  List.length (filter (fun e => match e with
                                | WriteFinished => true
                                | _ => false
                                end) tr).

Definition count_in_loop (tr : list (main_event score)) : nat :=
  List.length (filter (fun e => match e with
                                | InLoop _ _ => true
                                | _ => false
                                end) tr).

(** The number of [method.train_step] calls in a trace. *)
Definition count_train_steps (tr : list (main_event score)) : nat :=
  List.length (filter (fun e => match e with
                                | InLoop _ TrainStep => true
                                | _ => false
                                end) tr).

End Training.

(** *** main, from its first line *)

Inductive startup_event : Type :=
| SetGpuMemory                     (* set_gpu_memory(FLAGS.gpumem) *)
| GetDirectoryNames (e : dir_event)
| PathExists (path : string)       (* os.path.exists(path) *)
| MakeDirs (path : string)         (* os.makedirs(path) *)
| WriteConfigFromArgs (log_dir : string)
| LoadDa                           (* load_datasets.load_da(...) *)
| MethodsLoad                      (* methods.load(...) *)
| RestoreLatest (model_dir log_dir : string)
                                   (* CheckpointManager(...).restore_latest() *)
| NewMetrics (log_dir : string).   (* Metrics(log_dir, ...) *)

Inductive program_event (score : Type) : Type :=
| AtStartup (e : startup_event)
| InTraining (e : main_event score).

Arguments AtStartup {score} e.
Arguments InTraining {score} e.

Section Program.

Variable last_modified_number : string -> string -> option Z.
Variable score : Type.
Variable metrics_test : Z -> option score.

(** The file system as main sees it: which paths exist, and what
    [os.makedirs] changes. *)
Variable filesystem : Type.
Variable path_exists : filesystem -> string -> bool.
Variable makedirs : filesystem -> string -> filesystem.

(** The value [restore_latest] leaves in [global_step], an int32: 0 when
    there is no checkpoint. *)
Variable restored_step : filesystem -> string -> string -> Z.

Local Open Scope traced_scope.

(** [if not os.path.exists(d): os.makedirs(d)] *)
Definition ensure_directory (fs : filesystem) (d : string)
  : traced startup_event filesystem :=
  emit (PathExists d) ;;;
  if negb (path_exists fs d)
  then emit (MakeDirs d) ;;; tret (makedirs fs d)
  else tret fs.

(** Lines 84 to 121; the result is [global_step] as the loop finds it. *)
Definition startup (F : Flags) (fs : filesystem)
  : traced startup_event Z :=
  emit SetGpuMemory ;;;
  dirs <- relabel GetDirectoryNames
            (get_directory_names last_modified_number F) ;;
  let model_dir := fst dirs in
  let log_dir := snd dirs in
  fs <- ensure_directory fs model_dir ;;
  fs <- ensure_directory fs log_dir ;;
  emit (WriteConfigFromArgs log_dir) ;;;
  emit LoadDa ;;;
  emit MethodsLoad ;;;
  emit (RestoreLatest model_dir log_dir) ;;;
  let global_step := restored_step fs model_dir log_dir in
  emit (NewMetrics log_dir) ;;;
  tret global_step.

(** [main(argv)] *)
Definition main (F : Flags) (fs : filesystem)
  : traced (program_event score) unit :=
  global_step <- relabel AtStartup (startup F fs) ;;
  relabel InTraining (training score metrics_test F global_step).

End Program.

End Main.

(** ** Flag values used as examples *)

Module Examples.

Import Main.

(** The defaults of main.py, for [--dataset=ucihar --method=dann] and a
    run of 8000 steps. *)
Definition flags_8000 : Flags :=
  {| modeldir := "models"; logdir := "logs";
     method := "dann"; dataset := "ucihar"; uid := 0;
     steps := 8000; model_steps := 4000; log_train_steps := 500;
     log_val_steps := 4000; log_plots_steps := 4000;
     subdir := true; debug := false; time_training := false;
     debugnum := -1 |}.

(** The same run with [--time_training]. *)
Definition flags_timing : Flags :=
  {| modeldir := "models"; logdir := "logs";
     method := "dann"; dataset := "ucihar"; uid := 0;
     steps := 8000; model_steps := 4000; log_train_steps := 500;
     log_val_steps := 4000; log_plots_steps := 4000;
     subdir := true; debug := false; time_training := true;
     debugnum := -1 |}.

(** The same run with [--debugnum=3]. *)
Definition flags_debugnum : Flags :=
  {| modeldir := "models"; logdir := "logs";
     method := "dann"; dataset := "ucihar"; uid := 0;
     steps := 8000; model_steps := 4000; log_train_steps := 500;
     log_val_steps := 4000; log_plots_steps := 4000;
     subdir := true; debug := false; time_training := false;
     debugnum := 3 |}.

(** A validation accuracy that depends on the step. *)
Definition accuracy_of_step (global_step : Z) : option Z :=
  Some (global_step / 100).

(** A log directory with no earlier attempt. *)
Definition no_attempt (dir pattern : string) : option Z := None.

(** The default run with [--log_val_steps=0]. *)
Definition flags_zero_cadence : Flags :=
  {| modeldir := "models"; logdir := "logs";
     method := "dann"; dataset := "ucihar"; uid := 0;
     steps := 8000; model_steps := 4000; log_train_steps := 500;
     log_val_steps := 0; log_plots_steps := 4000;
     subdir := true; debug := false; time_training := false;
     debugnum := -1 |}.

(** A run of 8000 steps that validates every 3000 steps. *)
Definition flags_val_3000 : Flags :=
  {| modeldir := "models"; logdir := "logs";
     method := "dann"; dataset := "ucihar"; uid := 0;
     steps := 8000; model_steps := 4000; log_train_steps := 500;
     log_val_steps := 3000; log_plots_steps := 4000;
     subdir := true; debug := false; time_training := false;
     debugnum := -1 |}.

(** Stand-ins for TensorFlow's encoders: a tensor is a number, encoded as
    one byte; an example is encoded as the bytes of its three features. *)
Definition encode_nat (n : nat) : list nat := [n].

Definition flatten_example (e : Tfrecord.Example (list nat)) : list nat :=
  (List.concat (Tfrecord.bytes_list _ (Tfrecord.feature_x _ e))
   ++ List.concat (Tfrecord.bytes_list _ (Tfrecord.feature_y _ e))
   ++ List.concat (Tfrecord.bytes_list _ (Tfrecord.feature_domain _ e)))%list.

(** A short run: 10 steps, validation every 4. *)
Definition flags_short : Flags :=
  {| modeldir := "models"; logdir := "logs";
     method := "dann"; dataset := "ucihar"; uid := 0;
     steps := 10; model_steps := 5; log_train_steps := 2;
     log_val_steps := 4; log_plots_steps := 5;
     subdir := true; debug := false; time_training := false;
     debugnum := -1 |}.

(** A run long enough for the int32 counter to wrap: 2^31 steps, train
    metrics at every step, a checkpoint at step 2^31. *)
Definition flags_int32 : Flags :=
  {| modeldir := "models"; logdir := "logs";
     method := "dann"; dataset := "ucihar"; uid := 0;
     steps := 2147483648; model_steps := 2147483648; log_train_steps := 1;
     log_val_steps := 4000; log_plots_steps := 4000;
     subdir := true; debug := false; time_training := false;
     debugnum := -1 |}.

(** A log directory whose last attempt is number 4. *)
Definition attempt_4 (dir pattern : string) : option Z := Some 4.

(** The default run started with [--debug]. *)
Definition flags_debug : Flags :=
  {| modeldir := "models"; logdir := "logs";
     method := "dann"; dataset := "ucihar"; uid := 0;
     steps := 8000; model_steps := 4000; log_train_steps := 500;
     log_val_steps := 4000; log_plots_steps := 4000;
     subdir := true; debug := true; time_training := false;
     debugnum := -1 |}.

End Examples.

(** * Properties of datasets/tfrecord.py *)

Module TfrecordSpec.

Import Tfrecord.

(** *** Membership tests *)

Lemma mem_In (x : string) (l : list string) :
  Py.mem x l = true <-> In x l.
Proof.
  unfold Py.mem. rewrite existsb_exists. split.
  - intros [y [Hy Heq]]. apply String.eqb_eq in Heq. now subst.
  - intros H. exists x. split; [assumption | apply String.eqb_refl].
Qed.

Lemma mem_false (x : string) (l : list string) :
  Py.mem x l = false <-> ~ In x l.
Proof.
  rewrite <- mem_In. destruct (Py.mem x l); split; congruence.
Qed.

Lemma mem_names (name d1 : string) (d2 : option string) :
  Py.mem_opt name [Some d1; d2] = true <-> name = d1 \/ d2 = Some name.
Proof.
  unfold Py.mem_opt. simpl. rewrite !orb_true_iff. split.
  - intros [H | [H | H]].
    + left. now apply String.eqb_eq.
    + right. destruct d2 as [s |]; [| discriminate].
      apply String.eqb_eq in H. now subst.
    + discriminate.
  - intros [H | H].
    + left. subst. apply String.eqb_refl.
    + right. left. subst. apply String.eqb_refl.
Qed.

Lemma append_assoc (a b c : string) : (a ++ b) ++ c = a ++ (b ++ c).
Proof.
  induction a as [| ch a IH]; simpl; [reflexivity | now rewrite IH].
Qed.

(** *** Sorting two names *)

Lemma ltb_asym (a b : string) : String.ltb a b = true -> String.ltb b a = false.
Proof.
  unfold String.ltb. rewrite (String.compare_antisym b a).
  destruct (String.compare a b); simpl; congruence.
Qed.

Lemma ltb_connected (a b : string) :
  a <> b -> String.ltb a b = false -> String.ltb b a = true.
Proof.
  unfold String.ltb. intros Hne.
  rewrite (String.compare_antisym b a).
  destruct (String.compare a b) eqn:Hc; simpl; try congruence.
  apply String.compare_eq_iff in Hc. congruence.
Qed.

Lemma ltb_leb (a b : string) : String.ltb a b = true -> String.leb a b = true.
Proof.
  unfold String.ltb, String.leb. destruct (String.compare a b); congruence.
Qed.

Lemma sort_two (a b : string) :
  Py.sort [Some a; Some b]
  = Ok (if String.ltb a b then [Some a; Some b] else [Some b; Some a]).
Proof.
  simpl. now destruct (String.ltb a b).
Qed.

Lemma sort_two_comm (a b : string) :
  Py.sort [Some a; Some b] = Py.sort [Some b; Some a].
Proof.
  rewrite !sort_two.
  destruct (String.eqb_spec a b) as [-> | Hne]; [reflexivity |].
  destruct (String.ltb a b) eqn:Hab.
  - now rewrite (ltb_asym _ _ Hab).
  - now rewrite (ltb_connected _ _ Hne Hab).
Qed.

Lemma getitem_first {A : Type} (a b : A) : Py.getitem [a; b] 0 = Ok a.
Proof. reflexivity. Qed.

Lemma getitem_second {A : Type} (a b : A) : Py.getitem [a; b] 1 = Ok b.
Proof. reflexivity. Qed.

(** The branch that builds the pair prefix, for two strings. *)
Lemma tfrecord_filename_paired (d1 d2 name split : string) :
  In split splits ->
  name = d1 \/ name = d2 ->
  Py.mem d1 skip && Py.mem d2 skip = false ->
  tfrecord_filename d1 (Some d2) name split
  = Ok (fmt3 (if String.ltb d1 d2 then d1 ++ "_and_" ++ d2
              else d2 ++ "_and_" ++ d1) name split).
Proof.
  intros Hs Hn Hskip. unfold tfrecord_filename.
  apply mem_In in Hs. rewrite Hs.
  assert (Hm : Py.mem_opt name [Some d1; Some d2] = true).
  { apply mem_names. destruct Hn; [left | right]; congruence. }
  rewrite Hm. cbn [is_none in_skip orb]. rewrite Hskip.
  rewrite sort_two.
  destruct (String.ltb d1 d2);
    cbv [rbind]; rewrite getitem_first, getitem_second;
    cbv [Py.concat]; now rewrite append_assoc.
Qed.

(** C3: for two distinct string domains that are not both in the skip
    list, a dataset name that is one of them and a split among train,
    valid and test, [tfrecord_filename] returns the same name for (A, B)
    and for (B, A); the name starts with the two domains in lexicographic
    order joined by ["_and_"]. *)
Theorem tfrecord_filename_comm (A B name split : string) :
  A <> B ->
  ~ (In A skip /\ In B skip) ->
  name = A \/ name = B ->
  In split splits ->
  tfrecord_filename A (Some B) name split
  = tfrecord_filename B (Some A) name split
  /\ exists lo hi,
      ((lo = A /\ hi = B) \/ (lo = B /\ hi = A))
      /\ String.leb lo hi = true
      /\ tfrecord_filename A (Some B) name split
         = Ok (fmt3 (lo ++ "_and_" ++ hi) name split).
Proof.
  intros Hne Hskip Hn Hs.
  assert (HAB : Py.mem A skip && Py.mem B skip = false).
  { apply andb_false_iff.
    destruct (Py.mem A skip) eqn:HA; [| now left].
    destruct (Py.mem B skip) eqn:HB; [| now right].
    exfalso. apply Hskip. split; now apply mem_In. }
  assert (HBA : Py.mem B skip && Py.mem A skip = false)
    by now rewrite andb_comm.
  rewrite (tfrecord_filename_paired A B name split Hs Hn HAB).
  rewrite (tfrecord_filename_paired B A name split Hs
             (proj1 (or_comm _ _) Hn) HBA).
  destruct (String.ltb A B) eqn:Hlt.
  - rewrite (ltb_asym _ _ Hlt). split; [reflexivity |].
    exists A, B. repeat split; auto using ltb_leb.
  - rewrite (ltb_connected _ _ Hne Hlt). split; [reflexivity |].
    exists B, A. repeat split; auto using ltb_leb, ltb_connected.
Qed.

Lemma tfrecord_filename_comm_witness :
  "A" <> "B"
  /\ ~ (In "A" skip /\ In "B" skip)
  /\ ("A" = "A" \/ "A" = "B")
  /\ In "test" splits
  /\ tfrecord_filename "A" (Some "B") "A" "test"
     = tfrecord_filename "B" (Some "A") "A" "test".
Proof.
  assert (Hne : "A" <> "B") by discriminate.
  assert (Hskip : ~ (In "A" skip /\ In "B" skip))
    by (intros [H _]; simpl in H; intuition discriminate).
  assert (Hs : In "test" splits) by (simpl; auto).
  split; [exact Hne |]. split; [exact Hskip |].
  split; [left; reflexivity |]. split; [exact Hs |].
  apply (proj1 (tfrecord_filename_comm "A" "B" "A" "test"
                  Hne Hskip (or_introl eq_refl) Hs)).
Defined.

(** C8: the three worked examples.  Two office domains give
    ["office_amazon_train.tfrecord"]; ("A", "B") and ("B", "A") both give
    ["A_and_B_A_test.tfrecord"] for dataset "A" and split "test". *)
Theorem tfrecord_filename_examples :
  tfrecord_filename "office_amazon" (Some "office_webcam")
                    "office_amazon" "train"
  = Ok "office_amazon_train.tfrecord"
  /\ tfrecord_filename "A" (Some "B") "A" "test"
     = Ok "A_and_B_A_test.tfrecord"
  /\ tfrecord_filename "B" (Some "A") "A" "test"
     = tfrecord_filename "A" (Some "B") "A" "test".
Proof.
  repeat split; reflexivity.
Qed.

(** *** When the two naming functions raise *)

Lemma sort_names_ok (d1 d2 : string) :
  exists a b, Py.sort [Some d1; Some d2] = Ok [Some a; Some b].
Proof.
  rewrite sort_two. destruct (String.ltb d1 d2); eauto.
Qed.

Lemma tfrecord_filename_returns (d1 : string) (d2 : option string)
    (name split : string) :
  Py.mem split splits = true ->
  Py.mem_opt name [Some d1; d2] = true ->
  returns (tfrecord_filename d1 d2 name split).
Proof.
  intros Hs Hn. unfold tfrecord_filename, returns. rewrite Hs, Hn.
  destruct d2 as [d2 |]; cbn [is_none in_skip orb].
  - destruct (Py.mem d1 skip && Py.mem d2 skip); [eauto |].
    destruct (sort_names_ok d1 d2) as [a [b ->]].
    cbv [rbind]. rewrite getitem_first, getitem_second.
    cbv [Py.concat]. eauto.
  - eauto.
Qed.

(** C9: [tfrecord_filename] raises its assertion error exactly when the
    split is not train, valid or test, or the dataset name is neither
    [domain1] nor [domain2]; [tfrecord_filename_simple] raises it exactly
    when the split is not train, valid or test; and each call either raises
    that error or returns a name.  (The spec's [InvalidArgument] is
    Python's [AssertionError] here.) *)
Theorem naming_fails_iff (domain1 : string) (domain2 : option string)
    (dataset_name split : string) :
  (is_assertion_error (tfrecord_filename domain1 domain2 dataset_name split)
   <-> (~ In split splits
        \/ (dataset_name <> domain1 /\ domain2 <> Some dataset_name)))
  /\ (is_assertion_error (tfrecord_filename domain1 domain2 dataset_name split)
      \/ returns (tfrecord_filename domain1 domain2 dataset_name split))
  /\ (is_assertion_error (tfrecord_filename_simple dataset_name split)
      <-> ~ In split splits)
  /\ (is_assertion_error (tfrecord_filename_simple dataset_name split)
      \/ returns (tfrecord_filename_simple dataset_name split)).
Proof.
  destruct (Py.mem split splits) eqn:Hs;
    destruct (Py.mem_opt dataset_name [Some domain1; domain2]) eqn:Hn.
  - (* both assertions pass *)
    pose proof (tfrecord_filename_returns _ _ _ _ Hs Hn) as [f Hf].
    apply mem_In in Hs. apply mem_names in Hn.
    repeat split.
    + intros [msg Hm]. congruence.
    + intros [H | [H1 H2]]; [contradiction | tauto].
    + right. now exists f.
    + intros [msg Hm]. unfold tfrecord_filename_simple in Hm.
      apply mem_In in Hs. rewrite Hs in Hm. discriminate.
    + intros H. contradiction.
    + right. unfold tfrecord_filename_simple, returns.
      apply mem_In in Hs. rewrite Hs. eauto.
  - (* the dataset name is not one of the two domains *)
    assert (Hbad : dataset_name <> domain1 /\ domain2 <> Some dataset_name).
    { split; intros H;
        assert (Py.mem_opt dataset_name [Some domain1; domain2] = true)
          by (apply mem_names; auto); congruence. }
    assert (Hf : is_assertion_error
                   (tfrecord_filename domain1 domain2 dataset_name split)).
    { unfold tfrecord_filename, is_assertion_error.
      rewrite Hs, Hn. eauto. }
    repeat split; auto.
    + intros [msg Hm]. unfold tfrecord_filename_simple in Hm.
      rewrite Hs in Hm. discriminate.
    + intros H. apply mem_In in Hs. contradiction.
    + right. unfold tfrecord_filename_simple, returns. rewrite Hs. eauto.
  - (* the split is not valid *)
    assert (Hf : is_assertion_error
                   (tfrecord_filename domain1 domain2 dataset_name split)).
    { unfold tfrecord_filename, is_assertion_error. rewrite Hs. eauto. }
    assert (Hg : is_assertion_error
                   (tfrecord_filename_simple dataset_name split)).
    { unfold tfrecord_filename_simple, is_assertion_error.
      rewrite Hs. eauto. }
    apply mem_false in Hs. repeat split; auto.
  - assert (Hf : is_assertion_error
                   (tfrecord_filename domain1 domain2 dataset_name split)).
    { unfold tfrecord_filename, is_assertion_error. rewrite Hs. eauto. }
    assert (Hg : is_assertion_error
                   (tfrecord_filename_simple dataset_name split)).
    { unfold tfrecord_filename_simple, is_assertion_error.
      rewrite Hs. eauto. }
    apply mem_false in Hs. repeat split; auto.
Qed.

(** *** write_tfrecord *)

Lemma getitem_app {A : Type} (p s : list A) (a : A) :
  Py.getitem (p ++ a :: s) (Z.of_nat (List.length p)) = Ok a.
Proof.
  unfold Py.getitem.
  destruct (Z.ltb_spec (Z.of_nat (List.length p)) 0) as [Hneg | _]; [lia |].
  destruct (Z.ltb_spec (Z.of_nat (List.length p)) 0) as [Hneg | _]; [lia |].
  rewrite Nat2Z.id, nth_error_app2 by lia.
  now rewrite Nat.sub_diag.
Qed.

Lemma range_from_zero (n : Z) :
  Py.range 0 n = map Z.of_nat (seq 0 (Z.to_nat n)).
Proof.
  unfold Py.range. rewrite Z.sub_0_r. apply map_ext. intros k. lia.
Qed.

Section WriterSpec.

Variable tensor : Type.
Variable bytes : Type.
Variable serialize_tensor : tensor -> bytes.
Variable SerializeToString : Example bytes -> bytes.

(** The record written for one triple (x[i], y[i], domain[i]). *)
Local Abbreviation record_of :=
  (fun t : tensor * (tensor * tensor) =>
     SerializeToString
       (create_tf_example tensor bytes serialize_tensor
          (fst t) (fst (snd t)) (snd (snd t)))).

Lemma write_loop_suffix (sx : list tensor) :
  forall (px py pd sy sd : list tensor),
    List.length py = List.length px ->
    List.length pd = List.length px ->
    List.length sy = List.length sx ->
    List.length sd = List.length sx ->
    write_loop tensor bytes serialize_tensor SerializeToString
      (px ++ sx) (py ++ sy) (pd ++ sd)
      (map Z.of_nat (seq (List.length px) (List.length sx)))
    = Ok (map record_of (combine sx (combine sy sd))).
Proof.
  induction sx as [| a sx IH]; intros px py pd sy sd Hpy Hpd Hsy Hsd.
  - reflexivity.
  - destruct sy as [| b sy]; [discriminate |].
    destruct sd as [| c sd]; [discriminate |].
    cbn [List.length seq map write_loop].
    rewrite getitem_app.
    rewrite <- Hpy, getitem_app, Hpy.
    rewrite <- Hpd, getitem_app, Hpd.
    cbn [rbind].
    specialize (IH (px ++ [a]) (py ++ [b]) (pd ++ [c]) sy sd)%list.
    rewrite <- !app_assoc in IH. cbn [app] in IH.
    rewrite !length_app in IH. cbn [List.length] in IH.
    replace (List.length px + 1)%nat with (S (List.length px)) in IH by lia.
    rewrite IH by (simpl in *; lia).
    reflexivity.
Qed.

(** C10: [write_tfrecord] raises its assertion error exactly when
    [len(x)] differs from [len(y)] or from [len(domain)]; otherwise it
    writes, in index order, one record per index [i], built from
    [x[i]], [y[i]] and [domain[i]], so [len(x)] records in all.  (The
    spec's [ShapeMismatch] is Python's [AssertionError] here.) *)
Theorem write_tfrecord_spec (filename : string) (x y domain : list tensor) :
  (is_assertion_error
     (write_tfrecord tensor bytes serialize_tensor SerializeToString
        filename x y domain)
   <-> (List.length x <> List.length y
        \/ List.length x <> List.length domain))
  /\ write_tfrecord tensor bytes serialize_tensor SerializeToString
       filename x y domain
     = (if (List.length x =? List.length y)%nat
           && (List.length x =? List.length domain)%nat
        then Ok {| path := filename;
                   compression_type := "GZIP";
                   records := map record_of (combine x (combine y domain)) |}
        else Err (AssertionError EmptyString))
  /\ (List.length x = List.length y ->
      List.length x = List.length domain ->
      List.length (map record_of (combine x (combine y domain)))
      = List.length x).
Proof.
  assert (Heq : write_tfrecord tensor bytes serialize_tensor
                  SerializeToString filename x y domain
                = (if (List.length x =? List.length y)%nat
                      && (List.length x =? List.length domain)%nat
                   then Ok {| path := filename;
                              compression_type := "GZIP";
                              records := map record_of
                                           (combine x (combine y domain)) |}
                   else Err (AssertionError EmptyString))).
  { unfold write_tfrecord, len.
    destruct (Nat.eqb_spec (List.length x) (List.length y)) as [Hy | Hy].
    - replace (Z.of_nat (List.length x) =? Z.of_nat (List.length y))
        with true by (symmetry; apply Z.eqb_eq; lia).
      destruct (Nat.eqb_spec (List.length x) (List.length domain))
        as [Hd | Hd].
      + replace (Z.of_nat (List.length x) =? Z.of_nat (List.length domain))
          with true by (symmetry; apply Z.eqb_eq; lia).
        rewrite range_from_zero, Nat2Z.id.
        pose proof (write_loop_suffix x [] [] [] y domain) as H.
        cbn [app List.length] in H.
        rewrite H by (auto; lia). reflexivity.
      + replace (Z.of_nat (List.length x) =? Z.of_nat (List.length domain))
          with false by (symmetry; apply Z.eqb_neq; lia).
        reflexivity.
    - replace (Z.of_nat (List.length x) =? Z.of_nat (List.length y))
        with false by (symmetry; apply Z.eqb_neq; lia).
      reflexivity. }
  split; [| split].
  - rewrite Heq. unfold is_assertion_error.
    destruct (Nat.eqb_spec (List.length x) (List.length y)) as [Hy | Hy];
      destruct (Nat.eqb_spec (List.length x) (List.length domain))
        as [Hd | Hd]; cbn [andb]; split;
      try (intros [msg Hm]; discriminate);
      try (intros [H | H]; contradiction);
      eauto.
  - exact Heq.
  - intros Hy Hd. rewrite length_map, !length_combine. lia.
Qed.

End WriterSpec.

End TfrecordSpec.

(** * Properties of main.py *)

Module MainSpec.

Import Main.

(** *** Traced computations *)

Lemma tbind_ok {E A B : Type} (tr : list E) (a : A) (k : A -> traced E B) :
  tbind (tr, Ok a) k = ((tr ++ fst (k a))%list, snd (k a)).
Proof.
  unfold tbind. now destruct (k a).
Qed.

Lemma tbind_lift_ok {E A B : Type} (a : A) (k : A -> traced E B) :
  tbind (lift (Ok a)) k = k a.
Proof.
  unfold lift. rewrite tbind_ok. now destruct (k a).
Qed.

Lemma wrap_small (z : Z) :
  -2147483648 <= z <= 2147483647 -> Int32.wrap z = z.
Proof.
  intros H. unfold Int32.wrap. rewrite Z.mod_small by lia. lia.
Qed.

Lemma wrap_range (z : Z) :
  -2147483648 <= Int32.wrap z <= 2147483647.
Proof.
  unfold Int32.wrap.
  pose proof (Z.mod_pos_bound (z + 2147483648) 4294967296). lia.
Qed.

Lemma wrap_idem (z : Z) : Int32.wrap (Int32.wrap z) = Int32.wrap z.
Proof.
  apply wrap_small, wrap_range.
Qed.

Lemma wrap_succ_wrap (z : Z) :
  Int32.wrap (Int32.wrap z + 1) = Int32.wrap (z + 1).
Proof.
  unfold Int32.wrap.
  replace ((z + 2147483648) mod 4294967296 - 2147483648 + 1 + 2147483648)
    with ((z + 2147483648) mod 4294967296 + 1) by lia.
  rewrite Z.add_mod_idemp_l by lia. f_equal. f_equal. lia.
Qed.

Lemma wrap_pred_succ (z : Z) :
  Int32.wrap (Int32.wrap (z + 1) - 1) = Int32.wrap z.
Proof.
  unfold Int32.wrap.
  replace ((z + 1 + 2147483648) mod 4294967296 - 2147483648 - 1 + 2147483648)
    with ((z + 1 + 2147483648) mod 4294967296 + (-1)) by lia.
  rewrite Z.add_mod_idemp_l by lia. f_equal. f_equal. lia.
Qed.

Lemma mod_nonzero (a b : Z) : b <> 0 -> Py.mod_ a b = Ok (a mod b).
Proof.
  intros Hb. unfold Py.mod_.
  destruct (Z.eqb_spec b 0); [contradiction | reflexivity].
Qed.

Lemma range_succ (lo : Z) (n : nat) :
  map (fun k => lo + Z.of_nat k) (seq 0 (S n))
  = lo :: map (fun k => (lo + 1) + Z.of_nat k) (seq 0 n).
Proof.
  cbn [seq map]. rewrite Z.add_0_r. f_equal.
  rewrite <- seq_shift, map_map. apply map_ext. intros k. lia.
Qed.

Lemma range_empty (lo hi : Z) : hi <= lo -> Py.range lo hi = [].
Proof.
  intros H. unfold Py.range.
  replace (Z.to_nat (hi - lo)) with 0%nat by lia. reflexivity.
Qed.

(** Selecting by index in a list of consecutive integers. *)
Lemma flat_map_select {A : Type} (E : Z -> list A) (i : Z) (n : nat) :
  forall lo,
    flat_map (fun j => if j =? i then E j else [])
             (map (fun k => lo + Z.of_nat k) (seq 0 n))
    = if (lo <=? i) && (i <? lo + Z.of_nat n) then E i else [].
Proof.
  induction n as [| n IH]; intros lo.
  - cbn. destruct (Z.leb_spec lo i), (Z.ltb_spec i (lo + 0));
      try reflexivity; lia.
  - rewrite range_succ. cbn [flat_map]. rewrite IH.
    destruct (Z.eqb_spec lo i) as [-> | Hne].
    + destruct (Z.leb_spec (i + 1) i); [lia |].
      destruct (Z.leb_spec i i); [| lia].
      destruct (Z.ltb_spec i (i + Z.of_nat (S n))); [| lia].
      cbn. now rewrite app_nil_r.
    + cbn [app].
      destruct (Z.leb_spec (lo + 1) i), (Z.leb_spec lo i),
               (Z.ltb_spec i (lo + 1 + Z.of_nat n)),
               (Z.ltb_spec i (lo + Z.of_nat (S n)));
        try reflexivity; lia.
Qed.

Lemma seq_shift_offset (n a : nat) :
  map (fun k => (a + k)%nat) (seq 0 n) = seq (0 + a) n.
Proof.
  induction a as [| a IH].
  - rewrite Nat.add_0_r. apply map_id.
  - rewrite Nat.add_succ_r, <- seq_shift, <- IH, map_map. reflexivity.
Qed.

Lemma range_head (lo hi : Z) :
  lo < hi -> exists rest, Py.range lo hi = lo :: rest.
Proof.
  intros H. unfold Py.range.
  destruct (Z.to_nat (hi - lo)) as [| n] eqn:Hn; [lia |].
  rewrite range_succ. eauto.
Qed.

(** Walking through a range and collecting the selected indices: a
    selected first index, a stretch without any, and the end. *)
Lemma select_hit (c : Z -> bool) (lo next hi : Z) (l : list Z) :
  next = lo + 1 ->
  lo < hi ->
  c lo = true ->
  flat_map (fun j => if c j then [j] else []) (Py.range next hi) = l ->
  flat_map (fun j => if c j then [j] else []) (Py.range lo hi) = lo :: l.
Proof.
  intros -> Hlt Hc <-. unfold Py.range.
  replace (Z.to_nat (hi - lo)) with (S (Z.to_nat (hi - (lo + 1)))) by lia.
  rewrite range_succ. cbn [flat_map]. now rewrite Hc.
Qed.

Lemma select_none (c : Z -> bool) (n : nat) :
  forall lo,
    (forall j, lo <= j < lo + Z.of_nat n -> c j = false) ->
    flat_map (fun j => if c j then [j] else [])
             (map (fun k => lo + Z.of_nat k) (seq 0 n)) = [].
Proof.
  induction n as [| n IH]; intros lo Hc; [reflexivity |].
  rewrite range_succ. cbn [flat_map].
  rewrite (Hc lo) by lia. rewrite IH; [reflexivity |].
  intros j Hj. apply Hc. lia.
Qed.

Lemma select_skip (c : Z -> bool) (lo mid hi : Z) (l : list Z) :
  lo <= mid <= hi ->
  (forall j, lo <= j < mid -> c j = false) ->
  flat_map (fun j => if c j then [j] else []) (Py.range mid hi) = l ->
  flat_map (fun j => if c j then [j] else []) (Py.range lo hi) = l.
Proof.
  intros H Hc <-. unfold Py.range.
  replace (Z.to_nat (hi - lo))
    with (Z.to_nat (mid - lo) + Z.to_nat (hi - mid))%nat by lia.
  rewrite seq_app, map_app, flat_map_app.
  rewrite select_none by (intros j Hj; apply Hc; lia).
  cbn [app]. f_equal.
  rewrite <- (seq_shift_offset (Z.to_nat (hi - mid)) (Z.to_nat (mid - lo))).
  rewrite map_map. apply map_ext. intros k. lia.
Qed.

Lemma select_end (c : Z -> bool) (lo : Z) :
  flat_map (fun j => if c j then [j] else []) (Py.range lo lo) = [].
Proof.
  now rewrite range_empty by lia.
Qed.

Section TrainingSpec.

Variable score : Type.
Variable metrics_test : Z -> option score.

Local Abbreviation body := (Main.body score metrics_test).
Local Abbreviation for_loop := (Main.for_loop score metrics_test).
Local Abbreviation training := (Main.training score metrics_test).
Local Abbreviation events_of := (Main.events_of score).
Local Abbreviation validation_steps := (Main.validation_steps score).

(** *** One iteration *)

Lemma body_timing (F : Flags) (i g : Z) :
  time_training F = true ->
  body F i g
  = ([TrainStep; Print (Int32.wrap (g + 1))], Ok (Int32.wrap (g + 1))).
Proof.
  intros Ht. unfold Main.body. rewrite Ht. reflexivity.
Qed.

Local Abbreviation validation_due F i :=
  ((i mod log_val_steps F =? 0) || (i =? steps F)).

Local Abbreviation accuracy F i g :=
  (if validation_due F i then metrics_test g else None).

Local Abbreviation save_due F i g :=
  ((i mod model_steps F =? 0) || is_not_none score (accuracy F i g)).

Lemma body_full (F : Flags) (i g : Z) :
  time_training F = false ->
  cadences_nonzero F ->
  body F i g
  = ((TrainStep
       :: (if i mod 100 =? 0 then [StepTook (Int32.wrap (g + 1))] else [])
       ++ (if i mod log_train_steps F =? 0
           then [MetricsTrain (Int32.wrap (g + 1))] else [])
       ++ (if validation_due F i
           then [MetricsTest (Int32.wrap (g + 1))] else [])
       ++ (if save_due F i (Int32.wrap (g + 1))
           then [Save (Int32.wrap g)
                      (accuracy F i (Int32.wrap (g + 1)))] else [])
       ++ (if i mod log_plots_steps F =? 0
           then [Plots (Int32.wrap (g + 1))] else [])
     )%list,
     Ok (Int32.wrap (g + 1))).
Proof.
  intros Ht (Htr & Hv & Hm & Hp). unfold Main.body. rewrite Ht.
  rewrite (mod_nonzero i 100) by lia.
  rewrite (mod_nonzero _ _ Htr), (mod_nonzero _ _ Hv),
          (mod_nonzero _ _ Hm), (mod_nonzero _ _ Hp).
  unfold Int32.add, Int32.sub. rewrite wrap_pred_succ.
  cbv beta iota delta [tbind lift emit tret].
  destruct (i mod 100 =? 0), (i mod log_train_steps F =? 0),
           (validation_due F i), (metrics_test (Int32.wrap (g + 1))),
           (i mod model_steps F =? 0), (i mod log_plots_steps F =? 0);
    reflexivity.
Qed.

(** The body reads [global_step] only after the increment, so it depends
    on the int32 value alone. *)
Lemma body_wrap (F : Flags) (i g : Z) :
  body F i (Int32.wrap g) = body F i g.
Proof.
  unfold Main.body, Int32.add. now rewrite wrap_succ_wrap.
Qed.

(** *** The loop *)

(** The loop from index [g] on, entered with a counter [c] that is [g] as
    an int32: iteration [i] sees the counter [i] (as an int32), and the
    loop leaves the counter at the int32 after the last index. *)
Lemma for_loop_range (F : Flags) :
  (forall i g, snd (body F i g) = Ok (Int32.wrap (g + 1))) ->
  forall (n : nat) (g c : Z),
    Int32.wrap c = Int32.wrap g ->
    for_loop F (map (fun k => g + Z.of_nat k) (seq 0 n)) c
    = (flat_map (fun i => map (InLoop i) (fst (body F i i)))
                (map (fun k => g + Z.of_nat k) (seq 0 n)),
       Ok (match n with
           | O => c
           | S _ => Int32.wrap (g + Z.of_nat n)
           end)).
Proof.
  intros Hbody. induction n as [| n IH]; intros g c Hc.
  - reflexivity.
  - rewrite range_succ. cbn [Main.for_loop flat_map].
    assert (Hb : body F g c = body F g g)
      by (rewrite <- (body_wrap F g c), Hc; apply body_wrap).
    unfold relabel. rewrite Hb, Hbody, tbind_ok.
    rewrite (IH (g + 1) (Int32.wrap (g + 1))).
    + cbn [fst snd]. f_equal. f_equal.
      destruct n as [| n]; [f_equal; lia | f_equal; lia].
    + apply wrap_idem.
Qed.

Lemma training_total (F : Flags) (g0 : Z) :
  (forall i g, snd (body F i g) = Ok (Int32.wrap (g + 1))) ->
  training F g0
  = ((flat_map (fun i => map (InLoop i) (fst (body F i i)))
               (Py.range g0 (steps F + 1)) ++ [WriteFinished])%list,
     Ok tt).
Proof.
  intros Hbody. unfold Main.training, Py.range.
  rewrite (for_loop_range F Hbody _ g0 g0 eq_refl), tbind_ok. reflexivity.
Qed.

Lemma events_of_tagged (i : Z) (E : Z -> list (event score))
    (l : list Z) :
  events_of i (flat_map (fun j => map (InLoop j) (E j)) l)
  = flat_map (fun j => if j =? i then E j else []) l.
Proof.
  unfold Main.events_of. induction l as [| j l IH]; [reflexivity |].
  cbn [flat_map]. rewrite flat_map_app, IH. f_equal.
  destruct (j =? i) eqn:Hji.
  - induction (E j) as [| e evs IHe]; [reflexivity |].
    cbn [map flat_map]. rewrite Hji, IHe. reflexivity.
  - induction (E j) as [| e evs IHe]; [reflexivity |].
    cbn [map flat_map]. rewrite Hji. exact IHe.
Qed.

Lemma events_of_training (F : Flags) (g0 i : Z) :
  (forall i g, snd (body F i g) = Ok (Int32.wrap (g + 1))) ->
  g0 <= i <= steps F ->
  events_of i (fst (training F g0)) = fst (body F i i).
Proof.
  intros Hbody Hi. rewrite (training_total F g0 Hbody). cbn [fst].
  unfold Main.events_of at 1. rewrite flat_map_app. cbn [flat_map].
  rewrite app_nil_r.
  change (flat_map _ ?l) with (events_of i l).
  rewrite (events_of_tagged i (fun j => fst (body F j j))).
  unfold Py.range. rewrite flat_map_select.
  destruct (Z.leb_spec g0 i); [| lia].
  destruct (Z.ltb_spec i (g0 + Z.of_nat (Z.to_nat (steps F + 1 - g0))));
    [reflexivity | lia].
Qed.

(** *** Validation steps *)

Lemma validation_steps_tagged (E : Z -> list (event score)) (l : list Z) :
  validation_steps
    (flat_map (fun j => map (InLoop j) (E j)) l ++ [WriteFinished])
  = flat_map (fun j => flat_map (fun e => match e with
                                          | MetricsTest _ => [j]
                                          | _ => []
                                          end) (E j)) l.
Proof.
  unfold Main.validation_steps. rewrite flat_map_app. cbn [flat_map].
  rewrite !app_nil_r.
  induction l as [| j l IH]; [reflexivity |].
  cbn [flat_map]. rewrite flat_map_app, IH. f_equal.
  induction (E j) as [| e evs IHe]; [reflexivity |].
  cbn [map flat_map]. now rewrite IHe.
Qed.

Lemma body_total (F : Flags) :
  time_training F = false ->
  cadences_nonzero F ->
  forall i g, snd (body F i g) = Ok (Int32.wrap (g + 1)).
Proof.
  intros Ht Hc i g. now rewrite (body_full F i g Ht Hc).
Qed.

Lemma validation_steps_training (F : Flags) (g0 : Z) :
  time_training F = false ->
  cadences_nonzero F ->
  validation_steps (fst (training F g0))
  = flat_map (fun j => if validation_due F j then [j] else [])
             (Py.range g0 (steps F + 1)).
Proof.
  intros Ht Hc.
  rewrite (training_total F g0 (body_total F Ht Hc)). cbn [fst].
  rewrite (validation_steps_tagged (fun j => fst (body F j j))).
  apply flat_map_ext. intros j.
  rewrite (body_full F j j Ht Hc). cbn [fst].
  destruct (j mod 100 =? 0), (j mod log_train_steps F =? 0),
           (validation_due F j), (metrics_test (Int32.wrap (j + 1))),
           (j mod model_steps F =? 0), (j mod log_plots_steps F =? 0);
    reflexivity.
Qed.

(** C1 (as amended): with [log_train_steps = 500],
    [log_val_steps = 4000], [steps = 8000], timing off and the model and
    plot cadences non-zero, a run from step 0 calls [metrics.test] at
    loop steps 0, 4000 and 8000, once each, and at no other step; the
    run ends normally. *)
Theorem validation_steps_8000 (F : Flags) :
  log_train_steps F = 500 ->
  log_val_steps F = 4000 ->
  steps F = 8000 ->
  time_training F = false ->
  model_steps F <> 0 ->
  log_plots_steps F <> 0 ->
  validation_steps (fst (training F 0)) = [0; 4000; 8000]
  /\ snd (training F 0) = Ok tt.
Proof.
  intros Htr Hv Hs Ht Hm Hp.
  assert (Hc : cadences_nonzero F).
  { unfold cadences_nonzero. rewrite Htr, Hv. repeat split; lia || auto. }
  split.
  - rewrite (validation_steps_training F 0 Ht Hc), Hv, Hs.
    change (8000 + 1) with 8001.
    pose (c := fun j : Z => (j mod 4000 =? 0) || (j =? 8000)).
    apply (select_hit c 0 1 8001); [lia | lia | reflexivity |].
    apply (select_skip c 1 4000 8001); [lia | |].
    { intros j Hj. unfold c. rewrite Z.mod_small by lia.
      destruct (Z.eqb_spec j 0); [lia |].
      destruct (Z.eqb_spec j 8000); [lia | reflexivity]. }
    apply (select_hit c 4000 4001 8001); [lia | lia | reflexivity |].
    apply (select_skip c 4001 8000 8001); [lia | |].
    { intros j Hj. unfold c.
      assert (j mod 4000 = j - 4000)
        by (symmetry; apply (Z.mod_unique j 4000 1); lia).
      destruct (Z.eqb_spec (j mod 4000) 0); [lia |].
      destruct (Z.eqb_spec j 8000); [lia | reflexivity]. }
    apply (select_hit c 8000 8001 8001); [lia | lia | reflexivity |].
    apply select_end.
  - now rewrite (training_total F 0 (body_total F Ht Hc)).
Qed.

(** C2: when [global_step] was restored to [steps + 1] the loop body
    never runs, so no training step, metric, validation, checkpoint or
    plot call is made, and [write_finished] is called exactly once. *)
Theorem resume_after_last_step (F : Flags) :
  training F (steps F + 1) = ([WriteFinished], Ok tt)
  /\ count_in_loop score (fst (training F (steps F + 1))) = 0%nat
  /\ count_finished score (fst (training F (steps F + 1))) = 1%nat.
Proof.
  assert (H : training F (steps F + 1) = ([WriteFinished], Ok tt)).
  { unfold Main.training. rewrite range_empty by lia. reflexivity. }
  rewrite H. repeat split.
Qed.

(** *** Checkpoints *)


(** *** Timing runs *)

(** C5 (as amended): with [time_training] on and the loop steps within
    int32 ([global_step] at least -2^31 at the start and
    [steps < 2^31 - 1]), every loop iteration [i] runs the training step,
    prints one timing record and does nothing else: train metrics,
    validation, checkpoint save and also the plots are skipped; the run
    ends normally. *)
Theorem time_training_iteration (F : Flags) (g0 i : Z) :
  time_training F = true ->
  -2147483648 <= g0 ->
  steps F < 2147483647 ->
  g0 <= i <= steps F ->
  events_of i (fst (training F g0)) = [TrainStep; Print (i + 1)]
  /\ snd (training F g0) = Ok tt.
Proof.
  intros Ht Hlow Hhigh Hi.
  assert (Hbody : forall j g, snd (body F j g) = Ok (Int32.wrap (g + 1)))
    by (intros j g; now rewrite (body_timing F j g Ht)).
  split.
  - rewrite (events_of_training F g0 i Hbody Hi).
    rewrite (body_timing F i i Ht). cbn [fst].
    now rewrite (wrap_small (i + 1)) by lia.
  - now rewrite (training_total F g0 Hbody).
Qed.

End TrainingSpec.

(** *** The claims at the example flags *)

Lemma validation_steps_8000_witness :
  log_train_steps Examples.flags_8000 = 500
  /\ log_val_steps Examples.flags_8000 = 4000
  /\ steps Examples.flags_8000 = 8000
  /\ time_training Examples.flags_8000 = false
  /\ model_steps Examples.flags_8000 <> 0
  /\ log_plots_steps Examples.flags_8000 <> 0
  /\ Main.validation_steps Z
       (fst (Main.training Z Examples.accuracy_of_step
               Examples.flags_8000 0))
     = [0; 4000; 8000].
Proof.
  split; [reflexivity |]. split; [reflexivity |].
  split; [reflexivity |]. split; [reflexivity |].
  split; [simpl; lia |]. split; [simpl; lia |].
  apply (validation_steps_8000 Z Examples.accuracy_of_step
           Examples.flags_8000);
    try reflexivity; simpl; lia.
Defined.

(** Against C1 as stated: the run with the default cadences and 8000
    steps also validates at loop step 0, since [0 % 4000 == 0]. *)
Lemma validation_also_at_step_0 :
  In 0 (Main.validation_steps Z
          (fst (Main.training Z Examples.accuracy_of_step
                  Examples.flags_8000 0)))
  /\ Main.validation_steps Z
       (fst (Main.training Z Examples.accuracy_of_step
               Examples.flags_8000 0))
     <> [4000; 8000].
Proof.
  assert (Hc : cadences_nonzero Examples.flags_8000)
    by (unfold cadences_nonzero; simpl; lia).
  rewrite (validation_steps_training Z Examples.accuracy_of_step
             Examples.flags_8000 0 eq_refl Hc).
  destruct (range_head 0 (steps Examples.flags_8000 + 1)) as [rest Hr];
    [simpl; lia |].
  rewrite Hr. cbn [flat_map].
  assert (H0 : (if (0 mod log_val_steps Examples.flags_8000 =? 0)
                   || (0 =? steps Examples.flags_8000)
                then [0] else []) = [0]) by reflexivity.
  rewrite H0. cbn [app].
  split; [left; reflexivity | discriminate].
Qed.



Lemma time_training_iteration_witness :
  time_training Examples.flags_timing = true
  /\ -2147483648 <= 0
  /\ steps Examples.flags_timing < 2147483647
  /\ 0 <= 4000 <= steps Examples.flags_timing
  /\ Main.events_of Z 4000
       (fst (Main.training Z Examples.accuracy_of_step
               Examples.flags_timing 0))
     = [TrainStep; Print 4001].
Proof.
  assert (Hi : 0 <= 4000 <= steps Examples.flags_timing) by (simpl; lia).
  assert (Hlow : -2147483648 <= 0) by lia.
  assert (Hhigh : steps Examples.flags_timing < 2147483647) by (simpl; lia).
  split; [reflexivity |]. split; [exact Hlow |]. split; [exact Hhigh |].
  split; [exact Hi |].
  apply (proj1 (time_training_iteration Z Examples.accuracy_of_step
                  Examples.flags_timing 0 4000 eq_refl Hlow Hhigh Hi)).
Defined.

(** Against C5 as stated: in a timing run, loop step 4000 has
    [4000 % log_plots_steps == 0] and yet [metrics.plots] is not called. *)
Lemma plots_skipped_when_timing :
  ~ (forall i,
        0 <= i <= steps Examples.flags_timing ->
        let evs :=
          Main.events_of Z i
            (fst (Main.training Z Examples.accuracy_of_step
                    Examples.flags_timing 0)) in
        In (Print (i + 1)) evs
        /\ (forall g, ~ In (MetricsTrain g) evs)
        /\ (forall g, ~ In (MetricsTest g) evs)
        /\ (forall s a, ~ In (Save s a) evs)
        /\ (i mod log_plots_steps Examples.flags_timing = 0 ->
            In (Plots (i + 1)) evs)).
Proof.
  intros H.
  assert (Hi : 0 <= 4000 <= steps Examples.flags_timing) by (simpl; lia).
  assert (Hevs : Main.events_of Z 4000
                   (fst (Main.training Z Examples.accuracy_of_step
                           Examples.flags_timing 0))
                 = [TrainStep; Print 4001]).
  { assert (Hbody : forall j g,
               snd (Main.body Z Examples.accuracy_of_step
                      Examples.flags_timing j g) = Ok (Int32.wrap (g + 1)))
      by (intros j g;
          now rewrite (body_timing Z Examples.accuracy_of_step
                         Examples.flags_timing j g eq_refl)).
    rewrite (events_of_training Z Examples.accuracy_of_step
               Examples.flags_timing 0 4000 Hbody Hi).
    now rewrite (body_timing Z Examples.accuracy_of_step
                   Examples.flags_timing 4000 4000 eq_refl). }
  destruct (H 4000 Hi) as (_ & _ & _ & _ & Hplots).
  specialize (Hplots eq_refl).
  rewrite Hevs in Hplots. simpl in Hplots. intuition discriminate.
Qed.

(** *** get_directory_names *)

Section DirectoriesSpec.

Variable last_modified_number : string -> string -> option Z.

Local Abbreviation directory_modes :=
  (Main.directory_modes last_modified_number).
Local Abbreviation get_directory_names :=
  (Main.get_directory_names last_modified_number).

(** Lines 53 to 79 on a string prefix: the four branches in order. *)
Lemma directory_modes_str (F : Flags) (p : string) :
  directory_modes F (Py.VStr p)
  = if debugnum F >=? 0 then
      ([LoggingInfo (debugnum F)],
       Ok (Py.path_join (modeldir F) (p ++ "-" ++ Py.str (debugnum F)),
           Py.path_join (logdir F) (p ++ "-" ++ Py.str (debugnum F))))
    else if debug F then
      let attempt :=
        match last_modified_number (logdir F) (p ++ "*") with
        | Some n => n + 1
        | None => 1
        end in
      ([LastModifiedNumber (logdir F) (p ++ "*"); LoggingInfo attempt],
       Ok (Py.path_join (modeldir F) (p ++ "-" ++ Py.str attempt),
           Py.path_join (logdir F) (p ++ "-" ++ Py.str attempt)))
    else if subdir F then
      ([], Ok (Py.path_join (modeldir F) p, Py.path_join (logdir F) p))
    else
      ([], Ok (modeldir F, logdir F)).
Proof.
  unfold Main.directory_modes.
  destruct (debugnum F >=? 0); [reflexivity |].
  destruct (debug F); [reflexivity |].
  destruct (subdir F); reflexivity.
Qed.

Lemma prefix_str_plus_int (F : Flags) : prefix F = Err TypeError.
Proof. reflexivity. Qed.

(** C6 (the code departs from it): the base name is never produced.
    [FLAGS.uid] is an integer flag, so
    [FLAGS.dataset+"-"+FLAGS.uid] adds an [int] to a [str] and line 51
    raises [TypeError], whatever the flags hold. *)
Theorem prefix_raises_TypeError (F : Flags) :
  prefix F = Err TypeError
  /\ prefix F <> Ok (Py.VStr (dataset F ++ "-" ++ Py.str (uid F)
                                ++ "-" ++ method F)).
Proof.
  rewrite prefix_str_plus_int. split; [reflexivity | discriminate].
Qed.

(** C7 (the code departs from it): [get_directory_names] computes the
    prefix before it looks at any mode, so it raises the [TypeError] of
    line 51 in all four modes, makes no directory query and returns no
    directories. *)
Theorem get_directory_names_raises_TypeError (F : Flags) :
  get_directory_names F = ([], Err TypeError).
Proof.
  unfold Main.get_directory_names. rewrite prefix_str_plus_int.
  reflexivity.
Qed.

End DirectoriesSpec.


(** The failing input of C6 and C7, [--debugnum=3] with the other flags at
    their defaults: the call raises, while lines 53 to 79 alone, given the
    intended prefix, would name the numbered directories. *)
Example get_directory_names_debugnum :
  Main.get_directory_names Examples.no_attempt Examples.flags_debugnum
  = ([], Err TypeError)
  /\ Main.directory_modes Examples.no_attempt Examples.flags_debugnum
       (Py.VStr "ucihar-0-dann")
     = ([LoggingInfo 3],
        Ok ("models/ucihar-0-dann-3", "logs/ucihar-0-dann-3")).
Proof.
  split; reflexivity.
Qed.

End MainSpec.


(** * Further properties of datasets/tfrecord.py *)

Module TfrecordMore.

Import Tfrecord.
Import TfrecordSpec.

(** *** Strings *)

Lemma length_append (a b : string) :
  String.length (a ++ b) = (String.length a + String.length b)%nat.
Proof.
  induction a as [| c a IH]; simpl; [reflexivity | now rewrite IH].
Qed.

Lemma append_cancel_l (a b c : string) : a ++ b = a ++ c -> b = c.
Proof.
  induction a as [| ch a IH]; simpl; intros H; [exact H |].
  injection H as H. now apply IH.
Qed.

(** Two splittings of one string with tails of the same length agree. *)
Lemma append_same_tail_length (a : string) :
  forall b s t,
    a ++ s = b ++ t ->
    String.length s = String.length t ->
    a = b /\ s = t.
Proof.
  induction a as [| c a IH]; intros b s t H Hlen.
  - destruct b as [| c' b]; [auto |].
    simpl in H. subst s. simpl in Hlen. rewrite length_append in Hlen. lia.
  - destruct b as [| c' b].
    + simpl in H. subst t. simpl in Hlen. rewrite length_append in Hlen. lia.
    + simpl in H. injection H as Hc H.
      destruct (IH b s t H Hlen) as [-> ->]. now subst.
Qed.

(** *** The names of the files *)

Lemma fmt2_inj (n1 n2 s1 s2 : string) :
  In s1 splits -> In s2 splits ->
  fmt2 n1 s1 = fmt2 n2 s2 ->
  n1 = n2 /\ s1 = s2.
Proof.
  unfold fmt2. intros H1 H2 H.
  simpl in H1, H2.
  destruct H1 as [<- | [<- | [<- | []]]];
    destruct H2 as [<- | [<- | [<- | []]]]; simpl in H.
  - now destruct (append_same_tail_length _ _ _ _ H eq_refl).
  - destruct (append_same_tail_length _ _ _ _ H eq_refl); discriminate.
  - change "_train.tfrecord" with ("_" ++ "train.tfrecord") in H.
    rewrite <- append_assoc in H.
    destruct (append_same_tail_length _ _ _ _ H eq_refl); discriminate.
  - destruct (append_same_tail_length _ _ _ _ H eq_refl); discriminate.
  - now destruct (append_same_tail_length _ _ _ _ H eq_refl).
  - change "_valid.tfrecord" with ("_" ++ "valid.tfrecord") in H.
    rewrite <- append_assoc in H.
    destruct (append_same_tail_length _ _ _ _ H eq_refl); discriminate.
  - change "_train.tfrecord" with ("_" ++ "train.tfrecord") in H.
    rewrite <- append_assoc in H.
    destruct (append_same_tail_length _ _ _ _ H eq_refl); discriminate.
  - change "_valid.tfrecord" with ("_" ++ "valid.tfrecord") in H.
    rewrite <- append_assoc in H.
    destruct (append_same_tail_length _ _ _ _ H eq_refl); discriminate.
  - now destruct (append_same_tail_length _ _ _ _ H eq_refl).
Qed.

(** What a successful call returns: a prefix fixed by the two domains,
    then the name of the single-file variant. *)
Lemma tfrecord_filename_shape (d1 : string) (d2 : option string) :
  exists pre,
    forall name split f,
      tfrecord_filename d1 d2 name split = Ok f ->
      In split splits /\ f = pre ++ fmt2 name split.
Proof.
  destruct d2 as [d2 |].
  - destruct (Py.mem d1 skip && Py.mem d2 skip) eqn:Hskip.
    + exists EmptyString. intros name split f H.
      unfold tfrecord_filename in H.
      destruct (Py.mem split splits) eqn:Hs; [| discriminate].
      destruct (Py.mem_opt name [Some d1; Some d2]); [| discriminate].
      cbn [is_none in_skip orb] in H. rewrite Hskip in H.
      injection H as <-. split; [now apply mem_In | reflexivity].
    + exists ((if String.ltb d1 d2 then d1 ++ "_and_" ++ d2
               else d2 ++ "_and_" ++ d1) ++ "_").
      intros name split f H.
      assert (Hs : In split splits).
      { unfold tfrecord_filename in H.
        destruct (Py.mem split splits) eqn:Hs; [| discriminate].
        now apply mem_In. }
      assert (Hn : name = d1 \/ name = d2).
      { unfold tfrecord_filename in H.
        destruct (Py.mem split splits); [| discriminate].
        destruct (Py.mem_opt name [Some d1; Some d2]) eqn:Hn;
          [| discriminate].
        apply mem_names in Hn. destruct Hn as [Hn | Hn]; [now left |].
        right. congruence. }
      rewrite (tfrecord_filename_paired d1 d2 name split Hs Hn Hskip) in H.
      injection H as <-. split; [exact Hs |].
      unfold fmt3, fmt2. now rewrite append_assoc.
  - exists EmptyString. intros name split f H.
    unfold tfrecord_filename in H.
    destruct (Py.mem split splits) eqn:Hs; [| discriminate].
    destruct (Py.mem_opt name [Some d1; None]); [| discriminate].
    cbn [is_none orb] in H. injection H as <-.
    split; [now apply mem_In | reflexivity].
Qed.

(** X1: when [domain2] is [None], or both domains are in the skip list,
    and the dataset name is one of the domains, [tfrecord_filename] does
    exactly what [tfrecord_filename_simple] does with the dataset name and
    the split, for a bad split too. *)
Theorem single_file_is_simple (domain1 : string) (domain2 : option string)
    (dataset_name split : string) :
  domain2 = None
  \/ (In domain1 skip /\ exists d2, domain2 = Some d2 /\ In d2 skip) ->
  dataset_name = domain1 \/ domain2 = Some dataset_name ->
  tfrecord_filename domain1 domain2 dataset_name split
  = tfrecord_filename_simple dataset_name split.
Proof.
  intros Hsingle Hn. apply mem_names in Hn.
  unfold tfrecord_filename, tfrecord_filename_simple. rewrite Hn.
  destruct (Py.mem split splits); [| reflexivity].
  destruct Hsingle as [-> | (H1 & d2 & -> & H2)]; [reflexivity |].
  apply mem_In in H1, H2. cbn [is_none in_skip orb]. now rewrite H1, H2.
Qed.

Lemma single_file_is_simple_witness :
  tfrecord_filename "office_dslr" (Some "office_webcam") "office_webcam"
                    "valid"
  = tfrecord_filename_simple "office_webcam" "valid".
Proof.
  apply (single_file_is_simple "office_dslr" (Some "office_webcam")
           "office_webcam" "valid").
  - right. split; [simpl; auto |].
    exists "office_webcam". split; [reflexivity | simpl; auto].
  - right. reflexivity.
Defined.

(** X2: swapping the two domains never changes what [tfrecord_filename]
    does, for any two strings: the same name, or the same assertion
    error. *)
Theorem tfrecord_filename_swap (A B dataset_name split : string) :
  tfrecord_filename A (Some B) dataset_name split
  = tfrecord_filename B (Some A) dataset_name split.
Proof.
  unfold tfrecord_filename.
  destruct (Py.mem split splits); [| reflexivity].
  assert (Hn : Py.mem_opt dataset_name [Some A; Some B]
               = Py.mem_opt dataset_name [Some B; Some A]).
  { unfold Py.mem_opt. simpl. rewrite !orb_false_r. apply orb_comm. }
  rewrite Hn.
  destruct (Py.mem_opt dataset_name [Some B; Some A]); [| reflexivity].
  cbn [is_none in_skip orb].
  rewrite (andb_comm (Py.mem A skip) (Py.mem B skip)).
  destruct (Py.mem B skip && Py.mem A skip); [reflexivity |].
  now rewrite sort_two_comm.
Qed.

(** X3: for two domains that are not both in the skip list, the paired
    name is never the single-file name of the same dataset and split. *)
Theorem paired_name_differs_from_simple (domain1 domain2 dataset_name
    split : string) :
  In split splits ->
  dataset_name = domain1 \/ dataset_name = domain2 ->
  ~ (In domain1 skip /\ In domain2 skip) ->
  tfrecord_filename domain1 (Some domain2) dataset_name split
  <> tfrecord_filename_simple dataset_name split.
Proof.
  intros Hs Hn Hskip.
  assert (Hb : Py.mem domain1 skip && Py.mem domain2 skip = false).
  { apply andb_false_iff.
    destruct (Py.mem domain1 skip) eqn:H1; [| now left].
    destruct (Py.mem domain2 skip) eqn:H2; [| now right].
    exfalso. apply Hskip. split; now apply mem_In. }
  rewrite (tfrecord_filename_paired _ _ _ _ Hs Hn Hb).
  unfold tfrecord_filename_simple.
  apply mem_In in Hs. rewrite Hs.
  intros H. injection H as H.
  apply (f_equal String.length) in H.
  unfold fmt3, fmt2 in H.
  destruct (String.ltb domain1 domain2);
    rewrite !length_append in H; simpl in H; lia.
Qed.

Lemma paired_name_differs_from_simple_witness :
  tfrecord_filename "A" (Some "B") "A" "test"
  <> tfrecord_filename_simple "A" "test".
Proof.
  apply (paired_name_differs_from_simple "A" "B" "A" "test").
  - simpl. auto.
  - left. reflexivity.
  - intros [H _]. simpl in H. intuition discriminate.
Defined.

(** X4: [tfrecord_filename_simple] never gives the same file name to two
    different pairs of dataset name and split. *)
Theorem tfrecord_filename_simple_inj (n1 n2 s1 s2 f : string) :
  tfrecord_filename_simple n1 s1 = Ok f ->
  tfrecord_filename_simple n2 s2 = Ok f ->
  n1 = n2 /\ s1 = s2.
Proof.
  unfold tfrecord_filename_simple. intros H1 H2.
  destruct (Py.mem s1 splits) eqn:Hs1; [| discriminate].
  destruct (Py.mem s2 splits) eqn:Hs2; [| discriminate].
  apply mem_In in Hs1, Hs2.
  injection H1 as <-. injection H2 as H2.
  symmetry in H2. now apply fmt2_inj.
Qed.

Lemma tfrecord_filename_simple_inj_witness :
  tfrecord_filename_simple "ucihar_1" "train" = Ok "ucihar_1_train.tfrecord"
  /\ ("ucihar_1" = "ucihar_1" /\ "train" = "train").
Proof.
  split; [reflexivity |].
  apply (tfrecord_filename_simple_inj "ucihar_1" "ucihar_1" "train" "train"
           "ucihar_1_train.tfrecord"); reflexivity.
Defined.

(** X5: for a fixed pair of domains, [tfrecord_filename] never gives the
    same file name to two different pairs of dataset name and split: the
    source and the target, and the train, valid and test splits, all get
    files of their own. *)
Theorem tfrecord_filename_inj (domain1 : string) (domain2 : option string)
    (n1 n2 s1 s2 f : string) :
  tfrecord_filename domain1 domain2 n1 s1 = Ok f ->
  tfrecord_filename domain1 domain2 n2 s2 = Ok f ->
  n1 = n2 /\ s1 = s2.
Proof.
  intros H1 H2.
  destruct (tfrecord_filename_shape domain1 domain2) as [pre Hpre].
  destruct (Hpre _ _ _ H1) as [Hs1 E1].
  destruct (Hpre _ _ _ H2) as [Hs2 E2].
  rewrite E1 in E2. apply append_cancel_l in E2.
  now apply fmt2_inj.
Qed.

Lemma tfrecord_filename_inj_witness :
  tfrecord_filename "A" (Some "B") "A" "test" = Ok "A_and_B_A_test.tfrecord"
  /\ ("A" = "A" /\ "test" = "test").
Proof.
  split; [reflexivity |].
  apply (tfrecord_filename_inj "A" (Some "B") "A" "A" "test" "test"
           "A_and_B_A_test.tfrecord"); reflexivity.
Defined.

(** *** write_tfrecord *)

Lemma combine_app_same_length {A B : Type} (l1 : list A) :
  forall (l2 : list A) (m1 m2 : list B),
    List.length l1 = List.length m1 ->
    combine (l1 ++ l2) (m1 ++ m2) = (combine l1 m1 ++ combine l2 m2)%list.
Proof.
  induction l1 as [| a l1 IH]; intros l2 m1 m2 Hlen;
    destruct m1 as [| b m1]; try discriminate; [reflexivity |].
  cbn [app combine]. f_equal. apply IH. simpl in Hlen. lia.
Qed.

Lemma combine_inj {A B : Type} (l1 : list A) :
  forall (l1' : list A) (m1 m1' : list B),
    List.length l1 = List.length m1 ->
    List.length l1' = List.length m1' ->
    combine l1 m1 = combine l1' m1' ->
    l1 = l1' /\ m1 = m1'.
Proof.
  induction l1 as [| a l1 IH]; intros l1' m1 m1' H H' E;
    destruct m1 as [| b m1]; try discriminate;
    destruct l1' as [| a' l1']; destruct m1' as [| b' m1'];
    try discriminate; [auto |].
  cbn [combine] in E. injection E as -> -> E.
  destruct (IH l1' m1 m1') as [-> ->]; simpl in *; auto; lia.
Qed.

Section WriterMore.

Variable tensor : Type.
Variable bytes : Type.
Variable serialize_tensor : tensor -> bytes.
Variable SerializeToString : Example bytes -> bytes.

Local Abbreviation write_tfrecord :=
  (Tfrecord.write_tfrecord tensor bytes serialize_tensor SerializeToString).

Local Abbreviation record_of :=
  (fun t : tensor * (tensor * tensor) =>
     SerializeToString
       (create_tf_example tensor bytes serialize_tensor
          (fst t) (fst (snd t)) (snd (snd t)))).

Lemma write_tfrecord_equal_lengths (filename : string)
    (x y domain : list tensor) :
  List.length x = List.length y ->
  List.length x = List.length domain ->
  write_tfrecord filename x y domain
  = Ok {| path := filename; compression_type := "GZIP";
          records := map record_of (combine x (combine y domain)) |}.
Proof.
  intros Hy Hd. unfold Tfrecord.write_tfrecord, len.
  rewrite <- Hy, <- Hd, !Z.eqb_refl.
  rewrite range_from_zero, Nat2Z.id.
  pose proof (write_loop_suffix tensor bytes serialize_tensor
                SerializeToString x [] [] [] y domain) as H.
  cbn [app List.length] in H.
  rewrite H by (auto; lia). reflexivity.
Qed.

Lemma write_tfrecord_ok_lengths (filename : string)
    (x y domain : list tensor) (file : TFRecordFile bytes) :
  write_tfrecord filename x y domain = Ok file ->
  List.length x = List.length y /\ List.length x = List.length domain.
Proof.
  unfold Tfrecord.write_tfrecord, len. intros H.
  destruct (Z.eqb_spec (Z.of_nat (List.length x)) (Z.of_nat (List.length y)));
    [| discriminate].
  destruct (Z.eqb_spec (Z.of_nat (List.length x))
              (Z.of_nat (List.length domain))); [| discriminate].
  lia.
Qed.

(** X6: writing two batches one after the other gives the records of the
    first followed by the records of the second: when each batch has
    sequences of equal length, [write_tfrecord] on the concatenated
    sequences writes the concatenation of what it writes for each. *)
Theorem write_tfrecord_app (filename : string)
    (x1 y1 d1 x2 y2 d2 : list tensor) :
  List.length x1 = List.length y1 ->
  List.length x1 = List.length d1 ->
  List.length x2 = List.length y2 ->
  List.length x2 = List.length d2 ->
  exists r1 r2,
    write_tfrecord filename x1 y1 d1
    = Ok {| path := filename; compression_type := "GZIP"; records := r1 |}
    /\ write_tfrecord filename x2 y2 d2
       = Ok {| path := filename; compression_type := "GZIP"; records := r2 |}
    /\ write_tfrecord filename (x1 ++ x2) (y1 ++ y2) (d1 ++ d2)
       = Ok {| path := filename; compression_type := "GZIP";
               records := (r1 ++ r2)%list |}.
Proof.
  intros Hy1 Hd1 Hy2 Hd2.
  exists (map record_of (combine x1 (combine y1 d1))),
         (map record_of (combine x2 (combine y2 d2))).
  split; [now apply write_tfrecord_equal_lengths |].
  split; [now apply write_tfrecord_equal_lengths |].
  rewrite write_tfrecord_equal_lengths
    by (rewrite !length_app; lia).
  rewrite (combine_app_same_length y1 y2 d1 d2) by lia.
  rewrite (combine_app_same_length x1 x2) by (rewrite length_combine; lia).
  now rewrite map_app.
Qed.

(** X7: nothing is lost on the way to the file.  If TensorFlow's encoding
    of an example determines the three tensors it was built from, then two
    successful calls that write the same records were given the same [x],
    [y] and [domain]. *)
Theorem write_tfrecord_inj (f f' : string) (x y d x' y' d' : list tensor)
    (file file' : TFRecordFile bytes) :
  (forall a b c a' b' c',
      SerializeToString
        (create_tf_example tensor bytes serialize_tensor a b c)
      = SerializeToString
          (create_tf_example tensor bytes serialize_tensor a' b' c') ->
      a = a' /\ b = b' /\ c = c') ->
  write_tfrecord f x y d = Ok file ->
  write_tfrecord f' x' y' d' = Ok file' ->
  records bytes file = records bytes file' ->
  x = x' /\ y = y' /\ d = d'.
Proof.
  intros Henc H H' Hrec.
  destruct (write_tfrecord_ok_lengths _ _ _ _ _ H) as [Hy Hd].
  destruct (write_tfrecord_ok_lengths _ _ _ _ _ H') as [Hy' Hd'].
  rewrite (write_tfrecord_equal_lengths f x y d Hy Hd) in H.
  rewrite (write_tfrecord_equal_lengths f' x' y' d' Hy' Hd') in H'.
  injection H as <-. injection H' as <-. cbn [records] in Hrec.
  assert (Hc : combine x (combine y d) = combine x' (combine y' d')).
  { revert Hrec.
    generalize (combine x (combine y d)), (combine x' (combine y' d')).
    intros l. induction l as [| [a [b c]] l IH]; intros [| [a' [b' c']] l'];
      cbn [map]; intros E; try discriminate; [reflexivity |].
    injection E as E1 E2. cbn [fst snd] in E1.
    destruct (Henc _ _ _ _ _ _ E1) as (-> & -> & ->).
    now rewrite (IH l' E2). }
  destruct (combine_inj x x' (combine y d) (combine y' d')) as [-> Hyd];
    try (rewrite length_combine; lia); [exact Hc |].
  destruct (combine_inj y y' d d') as [-> ->]; auto; lia.
Qed.

End WriterMore.

Lemma write_tfrecord_app_witness :
  exists r1 r2,
    Tfrecord.write_tfrecord nat (list nat) Examples.encode_nat
      Examples.flatten_example "ucihar_1_train.tfrecord"
      [1%nat] [2%nat] [3%nat]
    = Ok {| path := "ucihar_1_train.tfrecord"; compression_type := "GZIP";
            records := r1 |}
    /\ Tfrecord.write_tfrecord nat (list nat) Examples.encode_nat
         Examples.flatten_example "ucihar_1_train.tfrecord"
         [4%nat] [5%nat] [6%nat]
       = Ok {| path := "ucihar_1_train.tfrecord"; compression_type := "GZIP";
               records := r2 |}
    /\ Tfrecord.write_tfrecord nat (list nat) Examples.encode_nat
         Examples.flatten_example "ucihar_1_train.tfrecord"
         ([1%nat] ++ [4%nat]) ([2%nat] ++ [5%nat]) ([3%nat] ++ [6%nat])
       = Ok {| path := "ucihar_1_train.tfrecord"; compression_type := "GZIP";
               records := (r1 ++ r2)%list |}.
Proof.
  apply (write_tfrecord_app nat (list nat) Examples.encode_nat
           Examples.flatten_example "ucihar_1_train.tfrecord"
           [1%nat] [2%nat] [3%nat] [4%nat] [5%nat] [6%nat]); reflexivity.
Defined.

Lemma write_tfrecord_inj_witness :
  Tfrecord.write_tfrecord nat (list nat) Examples.encode_nat
    Examples.flatten_example "a.tfrecord"
    [1%nat; 4%nat] [2%nat; 5%nat] [3%nat; 6%nat]
  = Ok {| path := "a.tfrecord"; compression_type := "GZIP";
          records := [[1%nat; 2%nat; 3%nat]; [4%nat; 5%nat; 6%nat]] |}
  /\ ([1%nat; 4%nat] = [1%nat; 4%nat]
      /\ [2%nat; 5%nat] = [2%nat; 5%nat]
      /\ [3%nat; 6%nat] = [3%nat; 6%nat]).
Proof.
  split; [reflexivity |].
  apply (write_tfrecord_inj nat (list nat) Examples.encode_nat
           Examples.flatten_example "a.tfrecord" "b.tfrecord"
           [1%nat; 4%nat] [2%nat; 5%nat] [3%nat; 6%nat]
           [1%nat; 4%nat] [2%nat; 5%nat] [3%nat; 6%nat]
           {| path := "a.tfrecord"; compression_type := "GZIP";
              records := [[1%nat; 2%nat; 3%nat]; [4%nat; 5%nat; 6%nat]] |}
           {| path := "b.tfrecord"; compression_type := "GZIP";
              records := [[1%nat; 2%nat; 3%nat]; [4%nat; 5%nat; 6%nat]] |}).
  - intros a b c a' b' c' E. simpl in E. injection E as -> -> ->. auto.
  - reflexivity.
  - reflexivity.
  - reflexivity.
Defined.

End TfrecordMore.


(** * Further properties of main.py *)

Module MainMore.

Import Main.
Import MainSpec.

Lemma tbind_err {E A B : Type} (tr : list E) (e : exn)
    (k : A -> traced E B) :
  tbind (tr, Err e) k = (tr, Err e).
Proof. reflexivity. Qed.

Lemma range_length (lo hi : Z) :
  List.length (Py.range lo hi) = Z.to_nat (hi - lo).
Proof.
  unfold Py.range. now rewrite length_map, length_seq.
Qed.

Lemma range_cons (lo hi : Z) :
  lo < hi -> exists rest, Py.range lo hi = lo :: rest.
Proof.
  intros H. unfold Py.range.
  destruct (Z.to_nat (hi - lo)) as [| n] eqn:Hn; [lia |].
  rewrite range_succ. eauto.
Qed.

Lemma flat_map_filter {A : Type} (c : A -> bool) (l : list A) :
  flat_map (fun j => if c j then [j] else []) l = filter c l.
Proof.
  induction l as [| a l IH]; [reflexivity |].
  cbn [flat_map filter]. rewrite IH. now destruct (c a).
Qed.

Lemma get_directory_names_type_error
    (lister : string -> string -> option Z) (F : Flags) :
  get_directory_names lister F = ([], Err TypeError).
Proof. reflexivity. Qed.

Section TrainingMore.

Variable score : Type.
Variable metrics_test : Z -> option score.

Local Abbreviation body := (Main.body score metrics_test).
Local Abbreviation for_loop := (Main.for_loop score metrics_test).
Local Abbreviation training := (Main.training score metrics_test).
Local Abbreviation events_of := (Main.events_of score).
Local Abbreviation validation_steps := (Main.validation_steps score).
Local Abbreviation count_train_steps := (Main.count_train_steps score).
Local Abbreviation count_finished := (Main.count_finished score).

Local Abbreviation validation_due F i :=
  ((i mod log_val_steps F =? 0) || (i =? steps F)).

Local Abbreviation accuracy F i g :=
  (if validation_due F i then metrics_test g else None).

Local Abbreviation save_due F i g :=
  ((i mod model_steps F =? 0) || is_not_none score (accuracy F i g)).

Local Abbreviation is_train_step :=
  (fun e : event score => match e with
                          | TrainStep => true
                          | _ => false
                          end).

(** A run in which no [%] can raise: a timing run, or no zero cadence. *)
Local Abbreviation runs_through F :=
  (time_training F = true \/ cadences_nonzero F).

Lemma body_runs_through (F : Flags) :
  runs_through F ->
  forall i g, snd (body F i g) = Ok (Int32.wrap (g + 1)).
Proof.
  intros H i g. destruct (time_training F) eqn:Ht.
  - now rewrite (body_timing score metrics_test F i g Ht).
  - destruct H as [H | H]; [discriminate |].
    now rewrite (body_full score metrics_test F i g Ht H).
Qed.

Lemma body_one_train_step (F : Flags) (i g : Z) :
  runs_through F ->
  List.length (filter is_train_step (fst (body F i g))) = 1%nat.
Proof.
  intros H. destruct (time_training F) eqn:Ht.
  - now rewrite (body_timing score metrics_test F i g Ht).
  - destruct H as [H | H]; [discriminate |].
    rewrite (body_full score metrics_test F i g Ht H). cbn [fst].
    destruct (i mod 100 =? 0), (i mod log_train_steps F =? 0),
             (validation_due F i), (metrics_test (Int32.wrap (g + 1))),
             (i mod model_steps F =? 0), (i mod log_plots_steps F =? 0);
      reflexivity.
Qed.

Lemma count_train_steps_map (j : Z) (evs : list (event score)) :
  count_train_steps (map (InLoop j) evs)
  = List.length (filter is_train_step evs).
Proof.
  unfold Main.count_train_steps.
  induction evs as [| e evs IHe]; [reflexivity |].
  cbn [map filter]. destruct e; cbn [List.length]; now rewrite ?IHe.
Qed.

Lemma count_train_steps_tagged (E : Z -> list (event score)) (l : list Z) :
  (forall j, List.length (filter is_train_step (E j)) = 1%nat) ->
  count_train_steps
    (flat_map (fun j => map (InLoop j) (E j)) l ++ [WriteFinished])
  = List.length l.
Proof.
  intros HE.
  assert (Happ : forall t1 t2,
             count_train_steps (t1 ++ t2)
             = (count_train_steps t1 + count_train_steps t2)%nat).
  { intros t1 t2. unfold Main.count_train_steps.
    now rewrite filter_app, length_app. }
  rewrite Happ. change (count_train_steps [WriteFinished]) with 0%nat.
  rewrite Nat.add_0_r.
  induction l as [| j l IH]; [reflexivity |].
  cbn [flat_map List.length].
  now rewrite Happ, IH, count_train_steps_map, HE.
Qed.

(** X8: a run that goes through calls [method.train_step] once per loop
    index from [global_step] to [steps] inclusive, that is
    [steps + 1 - global_step] times: a fresh run of [steps] steps makes
    [steps + 1] training steps. *)
Theorem train_step_count (F : Flags) (g0 : Z) :
  runs_through F ->
  count_train_steps (fst (training F g0)) = Z.to_nat (steps F + 1 - g0).
Proof.
  intros H.
  rewrite (training_total score metrics_test F g0 (body_runs_through F H)).
  cbn [fst].
  rewrite (count_train_steps_tagged (fun j => fst (body F j j))).
  - apply range_length.
  - intros j. now apply body_one_train_step.
Qed.

(** X9: when the restored [global_step] is beyond [steps], by any amount,
    the loop body never runs and the run only calls [write_finished],
    whatever the cadences are. *)
Theorem resume_beyond_last_step (F : Flags) (g0 : Z) :
  steps F < g0 ->
  training F g0 = ([WriteFinished], Ok tt).
Proof.
  intros H. unfold Main.training. rewrite range_empty by lia. reflexivity.
Qed.

(** *** A zero cadence *)

Lemma count_finished_map (j : Z) (evs : list (event score)) :
  count_finished (map (InLoop j) evs) = 0%nat.
Proof.
  unfold Main.count_finished.
  induction evs as [| e evs IHe]; [reflexivity | exact IHe].
Qed.

Lemma events_of_map_other (i j : Z) (evs : list (event score)) :
  i <> j -> events_of i (map (InLoop j) evs) = [].
Proof.
  intros Hij. unfold Main.events_of.
  induction evs as [| e evs IHe]; [reflexivity |].
  cbn [map flat_map]. rewrite IHe.
  destruct (Z.eqb_spec j i); [congruence | reflexivity].
Qed.

Lemma body_zero_cadence (F : Flags) (i g : Z) :
  time_training F = false ->
  log_train_steps F = 0 \/ log_val_steps F = 0
  \/ model_steps F = 0 \/ log_plots_steps F = 0 ->
  snd (body F i g) = Err ZeroDivisionError
  /\ List.length (filter is_train_step (fst (body F i g))) = 1%nat.
Proof.
  intros Ht Hz. unfold Main.body. rewrite Ht.
  rewrite (mod_nonzero i 100) by lia. unfold Py.mod_, Int32.add.
  destruct (Z.eqb_spec (log_train_steps F) 0) as [Htr | Htr];
    destruct (Z.eqb_spec (log_val_steps F) 0) as [Hv | Hv];
    destruct (Z.eqb_spec (model_steps F) 0) as [Hm | Hm];
    destruct (Z.eqb_spec (log_plots_steps F) 0) as [Hp | Hp];
    try (exfalso; lia);
    cbv beta iota delta [tbind lift emit tret];
    destruct (i mod 100 =? 0), (i mod log_train_steps F =? 0),
             (validation_due F i), (metrics_test (Int32.wrap (g + 1))),
             (i mod model_steps F =? 0);
    split; reflexivity.
Qed.

(** X10: with timing off, a cadence flag equal to zero stops the run in
    its first iteration: the training step of that iteration is made, then
    a [%] raises [ZeroDivisionError], no later iteration runs and
    [write_finished] is never called. *)
Theorem zero_cadence_raises (F : Flags) (g0 : Z) :
  time_training F = false ->
  log_train_steps F = 0 \/ log_val_steps F = 0
  \/ model_steps F = 0 \/ log_plots_steps F = 0 ->
  g0 <= steps F ->
  snd (training F g0) = Err ZeroDivisionError
  /\ count_train_steps (fst (training F g0)) = 1%nat
  /\ count_finished (fst (training F g0)) = 0%nat
  /\ (forall i, i <> g0 -> events_of i (fst (training F g0)) = []).
Proof.
  intros Ht Hz Hg.
  destruct (body_zero_cadence F g0 g0 Ht Hz) as [Herr Hone].
  destruct (range_cons g0 (steps F + 1)) as [rest Hrange]; [lia |].
  assert (Htr : training F g0
                = (map (InLoop g0) (fst (body F g0 g0)),
                   Err ZeroDivisionError)).
  { unfold Main.training. rewrite Hrange. cbn [Main.for_loop].
    unfold relabel. rewrite Herr. reflexivity. }
  rewrite Htr. cbn [fst snd]. split; [reflexivity |].
  split; [| split].
  - now rewrite count_train_steps_map.
  - apply count_finished_map.
  - intros i Hi. now apply events_of_map_other.
Qed.

(** *** Iterations of a run that goes through *)

(** X11: with timing off, no zero cadence and the loop steps within int32
    ([global_step] at least -2^31 at the start and [steps < 2^31 - 1]),
    iteration [i] of the loop makes these calls and no others, in this
    order: the training step; the step log when [i % 100 == 0];
    [metrics.train] when [i % log_train_steps == 0]; [metrics.test] when
    [i % log_val_steps == 0] or [i == steps]; [checkpoint_manager.save]
    when [i % model_steps == 0] or a score was returned; [metrics.plots]
    when [i % log_plots_steps == 0].  Every hook receives
    [global_step = i + 1], and [save] receives [i]. *)
Theorem iteration_events (F : Flags) (g0 i : Z) :
  time_training F = false ->
  cadences_nonzero F ->
  -2147483648 <= g0 ->
  steps F < 2147483647 ->
  g0 <= i <= steps F ->
  events_of i (fst (training F g0))
  = (TrainStep
       :: (if i mod 100 =? 0 then [StepTook (i + 1)] else [])
       ++ (if i mod log_train_steps F =? 0
           then [MetricsTrain (i + 1)] else [])
       ++ (if validation_due F i then [MetricsTest (i + 1)] else [])
       ++ (if save_due F i (i + 1)
           then [Save i (accuracy F i (i + 1))] else [])
       ++ (if i mod log_plots_steps F =? 0 then [Plots (i + 1)] else [])
    )%list.
Proof.
  intros Ht Hc Hlow Hhigh Hi.
  rewrite (events_of_training score metrics_test F g0 i
             (body_runs_through F (or_intror Hc)) Hi).
  rewrite (body_full score metrics_test F i i Ht Hc). cbn [fst].
  now rewrite (wrap_small (i + 1)), (wrap_small i) by lia.
Qed.

(** X19: the same without a bound on the steps.  [global_step] is an
    int32, so in general the hooks of iteration [i] receive [i + 1]
    wrapped into the int32 range and [save] receives [i] wrapped: from
    [i = 2^31 - 1] on the values are negative. *)
Theorem iteration_events_int32 (F : Flags) (g0 i : Z) :
  time_training F = false ->
  cadences_nonzero F ->
  g0 <= i <= steps F ->
  events_of i (fst (training F g0))
  = (TrainStep
       :: (if i mod 100 =? 0 then [StepTook (Int32.wrap (i + 1))] else [])
       ++ (if i mod log_train_steps F =? 0
           then [MetricsTrain (Int32.wrap (i + 1))] else [])
       ++ (if validation_due F i
           then [MetricsTest (Int32.wrap (i + 1))] else [])
       ++ (if save_due F i (Int32.wrap (i + 1))
           then [Save (Int32.wrap i)
                      (accuracy F i (Int32.wrap (i + 1)))] else [])
       ++ (if i mod log_plots_steps F =? 0
           then [Plots (Int32.wrap (i + 1))] else [])
    )%list.
Proof.
  intros Ht Hc Hi.
  rewrite (events_of_training score metrics_test F g0 i
             (body_runs_through F (or_intror Hc)) Hi).
  now rewrite (body_full score metrics_test F i i Ht Hc).
Qed.

(** X12: with timing off, no zero cadence and the loop steps within int32
    ([global_step] at least -2^31 at the start and [steps < 2^31 - 1]),
    the last iteration, [i = steps], always calls [metrics.test], with
    [global_step] [steps + 1], also when [steps] is not a multiple of
    [log_val_steps]. *)
Theorem last_step_validates (F : Flags) (g0 : Z) :
  time_training F = false ->
  cadences_nonzero F ->
  -2147483648 <= g0 ->
  steps F < 2147483647 ->
  g0 <= steps F ->
  In (MetricsTest (steps F + 1))
     (events_of (steps F) (fst (training F g0))).
Proof.
  intros Ht Hc Hlow Hhigh Hg.
  rewrite (events_of_training score metrics_test F g0 (steps F)
             (body_runs_through F (or_intror Hc))) by lia.
  rewrite (body_full score metrics_test F (steps F) (steps F) Ht Hc).
  cbn [fst]. rewrite Z.eqb_refl, orb_true_r.
  rewrite (wrap_small (steps F + 1)) by lia.
  right. rewrite !in_app_iff. right. right. left. now left.
Qed.

(** X13: with timing off and no zero cadence, [metrics.test] is called at exactly
    the loop steps [i] from [global_step] to [steps] with
    [i % log_val_steps == 0] or [i == steps], once each and in increasing
    order. *)
Theorem validation_steps_filter (F : Flags) (g0 : Z) :
  time_training F = false ->
  cadences_nonzero F ->
  validation_steps (fst (training F g0))
  = filter (fun i => validation_due F i) (Py.range g0 (steps F + 1)).
Proof.
  intros Ht Hc.
  rewrite (validation_steps_training score metrics_test F g0 Ht Hc).
  apply flat_map_filter.
Qed.

(** X14: a resumed run repeats the uninterrupted one.  In runs that go
    through, an iteration [i] that two start values both reach makes the
    same calls with the same arguments in both runs. *)
Theorem resumed_run_agrees (F : Flags) (g0 g0' i : Z) :
  runs_through F ->
  g0 <= i <= steps F ->
  g0' <= i ->
  events_of i (fst (training F g0)) = events_of i (fst (training F g0')).
Proof.
  intros H Hi Hi'.
  rewrite !(events_of_training score metrics_test F _ i
              (body_runs_through F H)) by lia.
  reflexivity.
Qed.

(** X15: a run that goes through, with the loop steps within int32
    ([global_step] at least -2^31 at the start and [steps < 2^31 - 1]),
    leaves [global_step] at [steps + 1] when it started at or below that
    value, and where it was when it started beyond. *)
Theorem final_global_step (F : Flags) (g0 : Z) :
  runs_through F ->
  -2147483648 <= g0 ->
  steps F < 2147483647 ->
  snd (for_loop F (Py.range g0 (steps F + 1)) g0)
  = Ok (Z.max g0 (steps F + 1)).
Proof.
  intros H Hlow Hhigh. unfold Py.range.
  rewrite (for_loop_range score metrics_test F (body_runs_through F H)
             _ g0 g0 eq_refl).
  cbn [snd]. f_equal.
  destruct (Z.to_nat (steps F + 1 - g0)) as [| n] eqn:Hn; [lia |].
  replace (g0 + Z.of_nat (S n)) with (steps F + 1) by lia.
  rewrite wrap_small by lia. lia.
Qed.

End TrainingMore.

(** *** The loop at the example flags *)

Lemma train_step_count_witness :
  cadences_nonzero Examples.flags_8000
  /\ Main.count_train_steps Z
       (fst (Main.training Z Examples.accuracy_of_step
               Examples.flags_8000 0))
     = Z.to_nat 8001.
Proof.
  assert (Hc : cadences_nonzero Examples.flags_8000)
    by (unfold cadences_nonzero; simpl; lia).
  split; [exact Hc |].
  apply (train_step_count Z Examples.accuracy_of_step
           Examples.flags_8000 0 (or_intror Hc)).
Defined.

Lemma resume_beyond_last_step_witness :
  steps Examples.flags_8000 < 9000
  /\ Main.training Z Examples.accuracy_of_step Examples.flags_8000 9000
     = ([WriteFinished], Ok tt).
Proof.
  assert (H : steps Examples.flags_8000 < 9000) by (simpl; lia).
  split; [exact H |].
  apply (resume_beyond_last_step Z Examples.accuracy_of_step
           Examples.flags_8000 9000 H).
Defined.

Lemma zero_cadence_raises_witness :
  time_training Examples.flags_zero_cadence = false
  /\ log_val_steps Examples.flags_zero_cadence = 0
  /\ 0 <= steps Examples.flags_zero_cadence
  /\ snd (Main.training Z Examples.accuracy_of_step
            Examples.flags_zero_cadence 0)
     = Err ZeroDivisionError.
Proof.
  assert (Hg : 0 <= steps Examples.flags_zero_cadence) by (simpl; lia).
  split; [reflexivity |]. split; [reflexivity |]. split; [exact Hg |].
  apply (proj1 (zero_cadence_raises Z Examples.accuracy_of_step
                  Examples.flags_zero_cadence 0 eq_refl
                  (or_intror (or_introl eq_refl)) Hg)).
Defined.

Lemma iteration_events_witness :
  time_training Examples.flags_val_3000 = false
  /\ cadences_nonzero Examples.flags_val_3000
  /\ -2147483648 <= 0
  /\ steps Examples.flags_val_3000 < 2147483647
  /\ 0 <= 6000 <= steps Examples.flags_val_3000
  /\ Main.events_of Z 6000
       (fst (Main.training Z Examples.accuracy_of_step
               Examples.flags_val_3000 0))
     = [TrainStep; StepTook 6001; MetricsTrain 6001; MetricsTest 6001;
        Save 6000 (Some 60)].
Proof.
  assert (Hc : cadences_nonzero Examples.flags_val_3000)
    by (unfold cadences_nonzero; simpl; lia).
  assert (Hlow : -2147483648 <= 0) by lia.
  assert (Hhigh : steps Examples.flags_val_3000 < 2147483647)
    by (simpl; lia).
  assert (Hi : 0 <= 6000 <= steps Examples.flags_val_3000) by (simpl; lia).
  split; [reflexivity |]. split; [exact Hc |]. split; [exact Hlow |].
  split; [exact Hhigh |]. split; [exact Hi |].
  rewrite (iteration_events Z Examples.accuracy_of_step
             Examples.flags_val_3000 0 6000 eq_refl Hc Hlow Hhigh Hi).
  reflexivity.
Defined.

Lemma iteration_events_int32_witness :
  time_training Examples.flags_int32 = false
  /\ cadences_nonzero Examples.flags_int32
  /\ 2147483000 <= 2147483648 <= steps Examples.flags_int32
  /\ Main.events_of Z 2147483648
       (fst (Main.training Z Examples.accuracy_of_step
               Examples.flags_int32 2147483000))
     = [TrainStep; MetricsTrain (-2147483647); MetricsTest (-2147483647);
        Save (-2147483648) (Some (-21474837))].
Proof.
  assert (Hc : cadences_nonzero Examples.flags_int32)
    by (unfold cadences_nonzero; simpl; lia).
  assert (Hi : 2147483000 <= 2147483648 <= steps Examples.flags_int32)
    by (simpl; lia).
  split; [reflexivity |]. split; [exact Hc |]. split; [exact Hi |].
  rewrite (iteration_events_int32 Z Examples.accuracy_of_step
             Examples.flags_int32 2147483000 2147483648 eq_refl Hc Hi).
  reflexivity.
Defined.

Lemma last_step_validates_witness :
  time_training Examples.flags_val_3000 = false
  /\ cadences_nonzero Examples.flags_val_3000
  /\ -2147483648 <= 0
  /\ steps Examples.flags_val_3000 < 2147483647
  /\ 0 <= steps Examples.flags_val_3000
  /\ In (MetricsTest 8001)
        (Main.events_of Z 8000
           (fst (Main.training Z Examples.accuracy_of_step
                   Examples.flags_val_3000 0))).
Proof.
  assert (Hc : cadences_nonzero Examples.flags_val_3000)
    by (unfold cadences_nonzero; simpl; lia).
  assert (Hlow : -2147483648 <= 0) by lia.
  assert (Hhigh : steps Examples.flags_val_3000 < 2147483647)
    by (simpl; lia).
  assert (Hg : 0 <= steps Examples.flags_val_3000) by (simpl; lia).
  split; [reflexivity |]. split; [exact Hc |]. split; [exact Hlow |].
  split; [exact Hhigh |]. split; [exact Hg |].
  apply (last_step_validates Z Examples.accuracy_of_step
           Examples.flags_val_3000 0 eq_refl Hc Hlow Hhigh Hg).
Defined.

Lemma validation_steps_filter_witness :
  time_training Examples.flags_short = false
  /\ cadences_nonzero Examples.flags_short
  /\ Main.validation_steps Z
       (fst (Main.training Z Examples.accuracy_of_step
               Examples.flags_short 0))
     = [0; 4; 8; 10].
Proof.
  assert (Hc : cadences_nonzero Examples.flags_short)
    by (unfold cadences_nonzero; simpl; lia).
  split; [reflexivity |]. split; [exact Hc |].
  rewrite (validation_steps_filter Z Examples.accuracy_of_step
             Examples.flags_short 0 eq_refl Hc).
  reflexivity.
Defined.

Lemma resumed_run_agrees_witness :
  cadences_nonzero Examples.flags_8000
  /\ 0 <= 4000 <= steps Examples.flags_8000
  /\ Main.events_of Z 4000
       (fst (Main.training Z Examples.accuracy_of_step
               Examples.flags_8000 0))
     = Main.events_of Z 4000
         (fst (Main.training Z Examples.accuracy_of_step
                 Examples.flags_8000 4000)).
Proof.
  assert (Hc : cadences_nonzero Examples.flags_8000)
    by (unfold cadences_nonzero; simpl; lia).
  assert (Hi : 0 <= 4000 <= steps Examples.flags_8000) by (simpl; lia).
  assert (Hi' : 4000 <= 4000) by lia.
  split; [exact Hc |]. split; [exact Hi |].
  apply (resumed_run_agrees Z Examples.accuracy_of_step
           Examples.flags_8000 0 4000 4000 (or_intror Hc) Hi Hi').
Defined.

Lemma final_global_step_witness :
  cadences_nonzero Examples.flags_8000
  /\ -2147483648 <= 0
  /\ steps Examples.flags_8000 < 2147483647
  /\ snd (Main.for_loop Z Examples.accuracy_of_step Examples.flags_8000
            (Py.range 0 (steps Examples.flags_8000 + 1)) 0)
     = Ok 8001.
Proof.
  assert (Hc : cadences_nonzero Examples.flags_8000)
    by (unfold cadences_nonzero; simpl; lia).
  assert (Hlow : -2147483648 <= 0) by lia.
  assert (Hhigh : steps Examples.flags_8000 < 2147483647) by (simpl; lia).
  split; [exact Hc |]. split; [exact Hlow |]. split; [exact Hhigh |].
  apply (final_global_step Z Examples.accuracy_of_step
           Examples.flags_8000 0 (or_intror Hc) Hlow Hhigh).
Defined.

(** *** Lines 53 to 79 of get_directory_names *)

Lemma append_empty (s : string) : s ++ EmptyString = s.
Proof.
  induction s as [| c s IH]; simpl; [reflexivity | now rewrite IH].
Qed.

(** X16: an explicit [--debugnum] wins over [--debug] and [--subdir].
    When [debugnum >= 0], lines 53 to 79 give the same directories and
    make the same calls whatever [debug] and [subdir] are and whatever the
    log directory holds, and they do not list the log directory. *)
Theorem debugnum_takes_precedence
    (lister lister' : string -> string -> option Z) (F F' : Flags)
    (prefix : Py.value) :
  debugnum F >= 0 ->
  debugnum F' = debugnum F ->
  modeldir F' = modeldir F ->
  logdir F' = logdir F ->
  directory_modes lister F prefix = directory_modes lister' F' prefix
  /\ (forall d p,
         ~ In (LastModifiedNumber d p)
              (fst (directory_modes lister F prefix))).
Proof.
  intros Hn Hd Hm Hl.
  assert (Hge : (debugnum F >=? 0) = true) by (apply Z.geb_le; lia).
  unfold directory_modes, numbered. rewrite Hd, Hm, Hl, Hge. split.
  - reflexivity.
  - intros d p. destruct prefix as [s | n]; simpl; intuition discriminate.
Qed.

Lemma debugnum_takes_precedence_witness :
  debugnum Examples.flags_debugnum >= 0
  /\ directory_modes Examples.no_attempt Examples.flags_debugnum
       (Py.VStr "ucihar-0-dann")
     = directory_modes Examples.attempt_4 Examples.flags_debugnum
         (Py.VStr "ucihar-0-dann").
Proof.
  assert (Hn : debugnum Examples.flags_debugnum >= 0) by (simpl; lia).
  split; [exact Hn |].
  apply (proj1 (debugnum_takes_precedence Examples.no_attempt
                  Examples.attempt_4 Examples.flags_debugnum
                  Examples.flags_debugnum (Py.VStr "ucihar-0-dann")
                  Hn eq_refl eq_refl eq_refl)).
Defined.

(** X17: the model and the log directory carry the same run name.  Given a
    string prefix, in each mode but the flat one lines 53 to 79 return
    [os.path.join(modeldir, name)] and [os.path.join(logdir, name)] for
    one [name], which starts with the prefix. *)
Theorem directories_share_name (lister : string -> string -> option Z)
    (F : Flags) (p : string) :
  debugnum F >= 0 \/ debug F = true \/ subdir F = true ->
  exists suffix,
    snd (directory_modes lister F (Py.VStr p))
    = Ok (Py.path_join (modeldir F) (p ++ suffix),
          Py.path_join (logdir F) (p ++ suffix)).
Proof.
  intros H. rewrite directory_modes_str.
  destruct (debugnum F >=? 0) eqn:Hge.
  - exists ("-" ++ Py.str (debugnum F)). reflexivity.
  - destruct (debug F) eqn:Hdebug.
    + eexists. cbn [snd]. reflexivity.
    + destruct (subdir F) eqn:Hsub.
      * exists EmptyString. now rewrite append_empty.
      * exfalso. destruct H as [H | [H | H]]; try discriminate.
        assert (Hge' : (debugnum F >=? 0) = true) by (apply Z.geb_le; lia).
        congruence.
Qed.

Lemma directories_share_name_witness :
  debug Examples.flags_debug = true
  /\ exists suffix,
      snd (directory_modes Examples.attempt_4 Examples.flags_debug
             (Py.VStr "ucihar-0-dann"))
      = Ok (Py.path_join "models" ("ucihar-0-dann" ++ suffix),
            Py.path_join "logs" ("ucihar-0-dann" ++ suffix)).
Proof.
  split; [reflexivity |].
  apply (directories_share_name Examples.attempt_4 Examples.flags_debug
           "ucihar-0-dann" (or_intror (or_introl eq_refl))).
Defined.

(** *** main as a whole *)

(** X18: [main] never gets past its second statement.  After
    [set_gpu_memory] the call of [get_directory_names] raises the
    [TypeError] of line 51, so no directory is looked up or created, no
    training step runs and [write_finished] is not called, for any flags
    and any file system. *)
Theorem main_raises_at_startup
    (lister : string -> string -> option Z)
    (score : Type) (metrics_test : Z -> option score)
    (filesystem : Type) (path_exists : filesystem -> string -> bool)
    (makedirs : filesystem -> string -> filesystem)
    (restored_step : filesystem -> string -> string -> Z)
    (F : Flags) (fs : filesystem) :
  Main.main lister score metrics_test filesystem path_exists makedirs
    restored_step F fs
  = ([AtStartup SetGpuMemory], Err TypeError).
Proof.
  unfold Main.main, startup.
  rewrite (get_directory_names_type_error lister F). reflexivity.
Qed.

End MainMore.
